(** * status_fetcher.py: normalisation and fallback logic of the status poller

    A shallow embedding of [src/status_fetcher.py].  Python values coming out
    of [response.json()] are a small inductive type, Python exceptions are an
    error type, and the effects the script has (network reads, the wall clock,
    standard output and the output file) are threaded through a state and
    error monad over an explicit [world]. *)

From Stdlib Require Import String Ascii List ZArith NArith Lia Bool Arith.
From Stdlib Require Import SpecFloat DecimalString.
Import ListNotations.
Local Open Scope string_scope.
Set Warnings "-register-all".

(** ** Python values *)

(** The values [json.loads] can build.  A [dict] is an association list in
    insertion order; the keys of a JSON object are always strings.  A
    string is written in UTF-8 ([Py.code_points] reads its characters). *)
Inductive pyval : Type :=
| PNone
| PBool (b : bool)
| PInt (n : Z)
| PFloat (f : spec_float)
| PStr (s : string)
| PList (l : list pyval)
| PDict (d : list (string * pyval)).

(** Exceptions.  [requests.exceptions.RequestException] is the base class of
    everything [requests] raises; the other constructors are the built-in
    exceptions the script can run into. *)
Inductive request_kind : Type :=
| ConnectionError
| Timeout
| HTTPError (status_code : Z)
| OtherRequestError.

Inductive exn : Type :=
| RequestException (k : request_kind) (msg : string)
| KeyError (key : string)
| TypeError
| AttributeError
| ValueError
| IndexError
| OSError
| UnicodeEncodeError.

Inductive result (A : Type) : Type :=
| Ok (a : A)
| Raise (e : exn).
Arguments Ok {A} a.
Arguments Raise {A} e.

Definition rbind {A B} (r : result A) (k : A -> result B) : result B :=
  match r with
  | Ok a => k a
  | Raise e => Raise e
  end.

Module Py.

(** First binding of [k] in an association list. *)
Fixpoint assoc {V} (k : string) (d : list (string * V)) : option V :=
  match d with
  | [] => None
  | (k', v) :: d' => if String.eqb k k' then Some v else assoc k d'
  end.

(** [d[k] = v] on a dict: replaces the value in place or appends. *)
Fixpoint setitem {V} (k : string) (v : V) (d : list (string * V))
  : list (string * V) :=
  match d with
  | [] => [(k, v)]
  | (k', v') :: d' =>
      if String.eqb k k' then (k', v) :: d' else (k', v') :: setitem k v d'
  end.

(** [v[k]] with a string key: [KeyError] on a dict without the key,
    [TypeError] on everything else (lists and strings want integer
    indices, the rest is not subscriptable). *)
Definition getitem (v : pyval) (k : string) : result pyval :=
  match v with
  | PDict d =>
      match assoc k d with
      | Some x => Ok x
      | None => Raise (KeyError k)
      end
  | _ => Raise TypeError
  end.

(** [v.get(k, default)]: only dicts have the method. *)
Definition get (v : pyval) (k : string) (default : pyval) : result pyval :=
  match v with
  | PDict d =>
      match assoc k d with
      | Some x => Ok x
      | None => Ok default
      end
  | _ => Raise AttributeError
  end.

(** [v.items()] *)
Definition items (v : pyval) : result (list (string * pyval)) :=
  match v with
  | PDict d => Ok d
  | _ => Raise AttributeError
  end.

(** A continuation byte of UTF-8. *)
Definition is_cont (b : N) : bool := ((128 <=? b) && (b <=? 191))%N.

(** The number given to a byte that starts no well-formed sequence: it
    stands for no character and lies above the Unicode range. *)
Definition stray (b : N) : N := (1114112 + b)%N.

(** The characters of a string, each as its code point and its bytes.  The
    encoding is UTF-8, generalised so that a lone surrogate, which
    [json.loads] builds from an escape of one, is written as the three
    bytes of its value. *)
Fixpoint scan (s : list ascii) : list (N * list ascii) :=
  match s with
  | [] => []
  | b0 :: s1 =>
      let n0 := N_of_ascii b0 in
      if (n0 <? 128)%N then (n0, [b0]) :: scan s1
      else
        match s1 with
        | [] => [(stray n0, [b0])]
        | b1 :: s2 =>
            let n1 := N_of_ascii b1 in
            if ((194 <=? n0) && (n0 <=? 223) && is_cont n1)%N
            then (((n0 - 192) * 64 + (n1 - 128))%N, [b0; b1]) :: scan s2
            else
              match s2 with
              | [] => (stray n0, [b0]) :: scan s1
              | b2 :: s3 =>
                  let n2 := N_of_ascii b2 in
                  let v3 := ((n0 - 224) * 4096 + (n1 - 128) * 64
                             + (n2 - 128))%N in
                  if ((224 <=? n0) && (n0 <=? 239) && is_cont n1
                      && is_cont n2 && (2048 <=? v3))%N
                  then (v3, [b0; b1; b2]) :: scan s3
                  else
                    match s3 with
                    | [] => (stray n0, [b0]) :: scan s1
                    | b3 :: s4 =>
                        let n3 := N_of_ascii b3 in
                        let v4 := ((n0 - 240) * 262144 + (n1 - 128) * 4096
                                   + (n2 - 128) * 64 + (n3 - 128))%N in
                        if ((240 <=? n0) && (n0 <=? 244) && is_cont n1
                            && is_cont n2 && is_cont n3
                            && (65536 <=? v4) && (v4 <=? 1114111))%N
                        then (v4, [b0; b1; b2; b3]) :: scan s4
                        else (stray n0, [b0]) :: scan s1
                    end
              end
        end
  end.

(** The code points of a string. *)
Definition code_points (s : string) : list N :=
  map fst (scan (list_ascii_of_string s)).

(** The characters of a string, each a string of its own. *)
Definition chars (s : string) : list string :=
  map (fun cb => string_of_list_ascii (snd cb)) (scan (list_ascii_of_string s)).

(** What a [for] loop sees: the elements of a list, the characters of a
    string, the keys of a dict; [TypeError] for a value that is not
    iterable. *)
Definition iter (v : pyval) : result (list pyval) :=
  match v with
  | PList l => Ok l
  | PStr s => Ok (map PStr (chars s))
  | PDict d => Ok (map (fun kv => PStr (fst kv)) d)
  | _ => Raise TypeError
  end.

(** [v in [s1; ...; sn]] for a list of string literals. *)
Definition in_strs (v : pyval) (l : list string) : bool :=
  match v with
  | PStr s => existsb (String.eqb s) l
  | _ => false
  end.

(** Truth value of an object. *)
Definition truthy (v : pyval) : bool :=
  match v with
  | PNone => false
  | PBool b => b
  | PInt n => negb (n =? 0)%Z
  | PFloat (S754_zero _) => false
  | PFloat _ => true
  | PStr s => negb (String.eqb s "")
  | PList l => match l with [] => false | _ => true end
  | PDict d => match d with [] => false | _ => true end
  end.

(** [s.split(sep)] for a one-character separator: the pieces between the
    occurrences of [sep]; never the empty list. *)
Fixpoint split_chars (sep : ascii) (s : list ascii) : list (list ascii) :=
  match s with
  | [] => [[]]
  | c :: s' =>
      if Ascii.eqb c sep then [] :: split_chars sep s'
      else match split_chars sep s' with
           | p :: ps => (c :: p) :: ps
           | [] => [[c]]
           end
  end.

Definition split (v : pyval) (sep : ascii) : result (list string) :=
  match v with
  | PStr s => Ok (map string_of_list_ascii
                      (split_chars sep (list_ascii_of_string s)))
  | _ => Raise AttributeError
  end.

(** [l[0]] *)
Definition index0 {A} (l : list A) : result A :=
  match l with
  | x :: _ => Ok x
  | [] => Raise IndexError
  end.

(** [str(n)] of an integer *)
Definition str_of_int (n : Z) : string := NilZero.string_of_int (Z.to_int n).

Definition is_surrogate (c : N) : bool := ((55296 <=? c) && (c <=? 57343))%N.

(** A string the UTF-8 codec of a text file accepts: one without a
    surrogate. *)
Definition str_encodable (s : string) : bool :=
  forallb (fun c => negb (is_surrogate c)) (code_points s).

End Py.

(** ** Dates: [datetime.strptime] and [strftime] *)

Record datetime : Type := mkDatetime {
  year : Z; month : Z; day : Z;
  hour : Z; minute : Z; second : Z
}.

Module Strptime.

(** [strptime] turns the format into a regular expression and matches it
    with [re.match] under [IGNORECASE]; a directive becomes a named group
    of ordered alternatives, every alternative a fixed sequence of
    character classes over code points. *)
Definition cclass := N -> bool.

Inductive item : Type :=
| Lit (c : cclass)
| Group (alts : list (list cclass)).

(** The decimal digits of Unicode 14.0, the character database of
    CPython 3.11: they come in runs of ten, [0] to [9]; these are the code
    points of the zeros.  The class of digits of [re] on a [str] and
    [int()] both go by this table. *)
Definition DIGIT_ZEROS : list N :=
  (
  [48; 1632; 1776; 1984; 2406; 2534; 2662; 2790; 2918; 3046; 3174; 3302;
   3430; 3558; 3664; 3792; 3872; 4160; 4240; 6112; 6160; 6470; 6608; 6784;
   6800; 6992; 7088; 7232; 7248; 42528; 43216; 43264; 43472; 43504; 43600;
   44016; 65296; 66720; 68912; 69734; 69872; 69942; 70096; 70384; 70736;
   70864; 71248; 71360; 71472; 71904; 72016; 72784; 73040; 73120; 92768;
   92864; 93008; 120782; 120792; 120802; 120812; 120822; 123200; 123632;
   125264; 130032])%N.

(** The value of a decimal digit. *)
Definition digit_value (c : N) : option Z :=
  match find (fun z => (z <=? c) && (c <? z + 10))%N DIGIT_ZEROS with
  | Some z => Some (Z.of_N (c - z))
  | None => None
  end.

Definition is_digit : cclass :=
  fun c => match digit_value c with Some _ => true | None => false end.
(** a class [[lo-hi]] of the expression *)
Definition range (lo hi : ascii) : cclass :=
  fun c => ((N_of_ascii lo <=? c) && (c <=? N_of_ascii hi))%N.
Definition chr (a : ascii) : cclass := N.eqb (N_of_ascii a).
(** a letter of the format, matched without regard to case *)
Definition letter (up low : ascii) : cclass :=
  fun c => N.eqb c (N_of_ascii up) || N.eqb c (N_of_ascii low).

Definition d := is_digit.

(** [%Y]  (?P<Y>\d\d\d\d) *)
Definition re_Y : item := Group [[d; d; d; d]].
(** [%m]  (?P<m>1[0-2]|0[1-9]|[1-9]) *)
Definition re_m : item :=
  Group [[chr "1"; range "0" "2"]; [chr "0"; range "1" "9"]; [range "1" "9"]].
(** [%d]  (?P<d>3[0-1]|[1-2]\d|0[1-9]|[1-9]| [1-9]) *)
Definition re_d : item :=
  Group [[chr "3"; range "0" "1"]; [range "1" "2"; d];
         [chr "0"; range "1" "9"]; [range "1" "9"];
         [chr " "; range "1" "9"]].
(** [%H]  (?P<H>2[0-3]|[0-1]\d|\d) *)
Definition re_H : item :=
  Group [[chr "2"; range "0" "3"]; [range "0" "1"; d]; [d]].
(** [%M]  (?P<M>[0-5]\d|\d) *)
Definition re_M : item := Group [[range "0" "5"; d]; [d]].
(** [%S]  (?P<S>6[0-1]|[0-5]\d|\d) *)
Definition re_S : item :=
  Group [[chr "6"; range "0" "1"]; [range "0" "5"; d]; [d]].

(** The format ['%Y-%m-%dT%H:%M:%S'] of the script. *)
Definition iso_format : list item :=
  [re_Y; Lit (chr "-"); re_m; Lit (chr "-"); re_d; Lit (letter "T" "t");
   re_H; Lit (chr ":"); re_M; Lit (chr ":"); re_S].

(** One alternative against a prefix of the input. *)
Fixpoint match_seq (cs : list cclass) (s : list N)
  : option (list N * list N) :=
  match cs with
  | [] => Some ([], s)
  | c :: cs' =>
      match s with
      | a :: s' =>
          if c a then
            match match_seq cs' s' with
            | Some (m, rest) => Some (a :: m, rest)
            | None => None
            end
          else None
      | [] => None
      end
  end.

(** Backtracking match at the start of the input: the first alternative of
    a group for which the rest of the expression matches wins.  Returns
    the text of the groups and the input left over. *)
Fixpoint match_items (its : list item) (s : list N)
  : option (list (list N) * list N) :=
  match its with
  | [] => Some ([], s)
  | Lit c :: its' =>
      match s with
      | a :: s' => if c a then match_items its' s' else None
      | [] => None
      end
  | Group alts :: its' =>
      (fix try (alts : list (list cclass)) :=
         match alts with
         | [] => None
         | alt :: alts' =>
             match match_seq alt s with
             | Some (m, rest) =>
                 match match_items its' rest with
                 | Some (gs, r) => Some (m :: gs, r)
                 | None => try alts'
                 end
             | None => try alts'
             end
         end) alts
  end.

(** [int(text)] of a group: decimal digits after optional blanks. *)
Fixpoint int_of (acc : Z) (s : list N) : Z :=
  match s with
  | [] => acc
  | c :: s' =>
      match digit_value c with
      | Some v => int_of (10 * acc + v)%Z s'
      | None => int_of acc s'
      end
  end.

Definition is_leap (y : Z) : bool :=
  (((y mod 4 =? 0) && negb (y mod 100 =? 0)) || (y mod 400 =? 0))%Z.

Definition days_in_month (y m : Z) : Z :=
  match m with
  | 2 => if is_leap y then 29 else 28
  | 4 | 6 | 9 | 11 => 30
  | _ => 31
  end%Z.

(** The checks of the [datetime] constructor. *)
Definition valid (t : datetime) : bool :=
  ((1 <=? year t) && (year t <=? 9999) &&
   (1 <=? month t) && (month t <=? 12) &&
   (1 <=? day t) && (day t <=? days_in_month (year t) (month t)) &&
   (0 <=? hour t) && (hour t <=? 23) &&
   (0 <=? minute t) && (minute t <=? 59) &&
   (0 <=? second t) && (second t <=? 59))%Z.

(** [datetime.strptime(s, '%Y-%m-%dT%H:%M:%S')]: [ValueError] when the
    expression does not match, when input is left over, or when the fields
    are not a date. *)
Definition strptime_iso (s : string) : result datetime :=
  match match_items iso_format (Py.code_points s) with
  | Some ([gY; gm; gd; gH; gM; gS], []) =>
      let t := mkDatetime (int_of 0%Z gY) (int_of 0%Z gm) (int_of 0%Z gd)
                          (int_of 0%Z gH) (int_of 0%Z gM) (int_of 0%Z gS) in
      if valid t then Ok t else Raise ValueError
  | _ => Raise ValueError
  end.

Definition digit_char (n : Z) : ascii :=
  ascii_of_nat (Z.to_nat (48 + n mod 10)).

(** A two-digit, zero-padded field. *)
Definition pad2 (n : Z) : string :=
  String (digit_char (n / 10)) (String (digit_char n) EmptyString).

(** [t.strftime('%d/%m %H:%M')] *)
Definition strftime_dm_HM (t : datetime) : string :=
  pad2 (day t) ++ "/" ++ pad2 (month t) ++ " " ++
  pad2 (hour t) ++ ":" ++ pad2 (minute t).

End Strptime.

(** ** The world: network, clock, standard output, files *)

(** What [requests.get] hands back: the status line, the URL the response
    came from, and what [response.json()] does on the body (a value, or the
    exception of the decoder). *)
Record response : Type := mkResponse {
  status_code : Z;
  reason : string;
  url : string;
  json : result pyval
}.

(** What a file holds after [json.dump] ran on it: the whole text of a
    value, or a beginning of it when the dump was cut short. *)
Inductive file_content : Type :=
| Dumped (v : pyval)
| Partial (v : pyval).

(** The value whose text the file holds, in whole or in part. *)
Definition document_of (c : file_content) : pyval :=
  match c with
  | Dumped v => v
  | Partial v => v
  end.

(** A value the UTF-8 codec can write: no string in it, key or value, has
    a surrogate. *)
Fixpoint encodable (v : pyval) : bool :=
  match v with
  | PStr s => Py.str_encodable s
  | PList l => forallb encodable l
  | PDict d =>
      forallb (fun kv => let '(k, x) := kv in
                         Py.str_encodable k && encodable x) d
  | _ => true
  end.

Record world : Type := mkWorld {
  (** [requests.get(url, headers=..., timeout=10)]: a response, or the
      exception it raises *)
  net : string -> list (string * string) -> result response;
  (** the reading of the k-th call of [datetime.now()] *)
  clock : nat -> datetime;
  ticks : nat;
  (** whether [open(path, "w")] succeeds *)
  can_open : string -> bool;
  (** whether what is written to the file reaches the disk *)
  can_write : string -> bool;
  stdout : list string;
  (** the files, by the value whose text [json.dump] wrote to them *)
  files : list (string * file_content)
}.

(** State and exceptions: an exception leaves the effects done so far. *)
Definition M (A : Type) : Type := world -> result A * world.

Definition ret {A} (a : A) : M A := fun w => (Ok a, w).

Definition bind {A B} (c : M A) (k : A -> M B) : M B :=
  fun w =>
    match c w with
    | (Ok a, w') => k a w'
    | (Raise e, w') => (Raise e, w')
    end.

Definition lift {A} (r : result A) : M A := fun w => (r, w).

(** [try: body except <class> as e: handler]; [handler e] is [None] for an
    exception outside the class. *)
Definition try_except {A} (body : M A) (handler : exn -> option (M A)) : M A :=
  fun w =>
    match body w with
    | (Ok a, w') => (Ok a, w')
    | (Raise e, w') =>
        match handler e with
        | Some h => h w'
        | None => (Raise e, w')
        end
    end.

Declare Scope py_scope.
Delimit Scope py_scope with py.
Notation "x <- c ;; k" := (bind c (fun x => k))
  (at level 61, c at next level, right associativity) : py_scope.
Notation "c ;; k" := (bind c (fun _ => k))
  (at level 61, right associativity) : py_scope.
Notation "x <~ r ;; k" := (rbind r (fun x => k))
  (at level 61, r at next level, right associativity) : py_scope.
Local Open Scope py_scope.

Definition requests_get (url : string) (headers : list (string * string))
  : M response :=
  fun w => (net w url headers, w).

(** The text of the [HTTPError] of [raise_for_status]:
    ["<code> Client Error: <reason> for url: <url>"] for a 4xx status and
    the same with ["Server Error"] for a 5xx status. *)
Definition http_error_msg (r : response) : string :=
  (Py.str_of_int (status_code r)
   ++ (if (status_code r <? 500)%Z then " Client Error: " else " Server Error: ")
   ++ reason r ++ " for url: " ++ url r)%string.

(** [response.raise_for_status()]: [HTTPError] for a 4xx or 5xx status. *)
Definition raise_for_status (r : response) : result unit :=
  if ((400 <=? status_code r) && (status_code r <? 600))%Z
  then Raise (RequestException (HTTPError (status_code r)) (http_error_msg r))
  else Ok tt.

Definition datetime_now : M datetime :=
  fun w => (Ok (clock w (ticks w)),
            mkWorld (net w) (clock w) (S (ticks w)) (can_open w) (can_write w)
                    (stdout w) (files w)).

Definition print (line : string) : M unit :=
  fun w => (Ok tt,
            mkWorld (net w) (clock w) (ticks w) (can_open w) (can_write w)
                    (stdout w ++ [line]) (files w)).

(** The world in which the file at [path] has become [c]. *)
Definition with_file (path : string) (c : file_content) (w : world) : world :=
  mkWorld (net w) (clock w) (ticks w) (can_open w) (can_write w)
          (stdout w) (Py.setitem path c (files w)).

(** [with open(path, "w", encoding="utf-8") as f:
      json.dump(v, f, ensure_ascii=False, indent=4)].
    When the file cannot be opened nothing happens to it.  Opening empties
    it; the text of [v] is then written piece by piece.  A string with a
    surrogate stops the codec with UnicodeEncodeError, and a disk that
    refuses the text ends the block with OSError, at the latest when the
    file is closed; in both cases the file is left with a beginning of the
    text. *)
Definition dump_to_file (path : string) (v : pyval) : M unit :=
  fun w =>
    if can_open w path
    then
      if can_write w path
      then
        if encodable v
        then (Ok tt, with_file path (Dumped v) w)
        else (Raise UnicodeEncodeError, with_file path (Partial v) w)
      else (Raise OSError, with_file path (Partial v) w)
    else (Raise OSError, w).

(** ** The script *)

Definition STATUS_PAGES : list (string * string) :=
  [("AnyMarket", "https://status.anymarket.com.br");
   ("PagSeguro", "https://status.pagbank.com.br");
   ("Pagar.me", "https://status.pagar.me")].

Definition STATUS_MAP : list (string * string) :=
  [("operational", "operational");
   ("degraded_performance", "degraded");
   ("partial_outage", "degraded");
   ("major_outage", "investigating");
   ("under_maintenance", "scheduled");
   ("investigating", "investigating")].

(** [STATUS_MAP.get(key, default)]: a list or dict key is unhashable, any
    other key that is not a string is simply absent. *)
Definition STATUS_MAP_get (key : pyval) (default : string) : result string :=
  match key with
  | PStr s =>
      match Py.assoc s STATUS_MAP with
      | Some v => Ok v
      | None => Ok default
      end
  | PList _ | PDict _ => Raise TypeError
  | _ => Ok default
  end.

(** The dict literal [{"title": .., "status": .., "time": .., "new": ..}]. *)
Definition mk_incident (title : pyval) (status time : string) (new : bool)
  : pyval :=
  PDict [("title", title); ("status", PStr status);
         ("time", PStr time); ("new", PBool new)].

(** [datetime.strptime(v.split('.')[0], '%Y-%m-%dT%H:%M:%S')
      .strftime('%d/%m %H:%M')] *)
Definition format_time (v : pyval) : result string :=
  parts <~ Py.split v "." ;;
  head <~ Py.index0 parts ;;
  t <~ Strptime.strptime_iso head ;;
  Ok (Strptime.strftime_dm_HM t).

(** A [for] loop whose body appends at most one record to the list. *)
Fixpoint for_append (body : pyval -> result (option pyval))
  (xs : list pyval) (acc : list pyval) : result (list pyval) :=
  match xs with
  | [] => Ok acc
  | x :: xs' =>
      r <~ body x ;;
      for_append body xs'
        (match r with Some rec => acc ++ [rec] | None => acc end)
  end.

(** Body of the loop over [data.get('incidents', [])]. *)
Definition incident_body (incident : pyval) : result (option pyval) :=
  st <~ Py.getitem incident "status" ;;
  if Py.in_strs st ["investigating"; "identified"; "monitoring"; "in_progress"]
  then
    title <~ Py.getitem incident "name" ;;
    st' <~ Py.getitem incident "status" ;;
    status <~ STATUS_MAP_get st' "investigating" ;;
    created_at <~ Py.getitem incident "created_at" ;;
    time <~ format_time created_at ;;
    Ok (Some (mk_incident title status time true))
  else Ok None.

(** Body of the loop over [data.get('scheduled_maintenances', [])]. *)
Definition maintenance_body (maintenance : pyval) : result (option pyval) :=
  st <~ Py.getitem maintenance "status" ;;
  if Py.in_strs st ["scheduled"; "in_progress"]
  then
    title <~ Py.getitem maintenance "name" ;;
    scheduled_for <~ Py.getitem maintenance "scheduled_for" ;;
    time <~ format_time scheduled_for ;;
    Ok (Some (mk_incident title "scheduled" time true))
  else Ok None.

(** [for incident in data.get('incidents', []): ...] *)
Definition incidents_loop (data : pyval) (incidents : list pyval)
  : result (list pyval) :=
  l <~ Py.get data "incidents" (PList []) ;;
  xs <~ Py.iter l ;;
  for_append incident_body xs incidents.

(** [for maintenance in data.get('scheduled_maintenances', []): ...] *)
Definition maintenances_loop (data : pyval) (incidents : list pyval)
  : result (list pyval) :=
  l <~ Py.get data "scheduled_maintenances" (PList []) ;;
  xs <~ Py.iter l ;;
  for_append maintenance_body xs incidents.

(** [incidents = []] and the two loops. *)
Definition collect (data : pyval) : result (list pyval) :=
  incidents <~ incidents_loop data [] ;;
  maintenances_loop data incidents.

Definition fetch_error_title : string :=
  "Erro ao carregar status. Dados podem estar desatualizados.".

Definition fetch_status_page_data (base_url : string) : M (list pyval) :=
  let api_url := (base_url ++ "/api/v2/summary.json")%string in
  try_except
    (response <- requests_get api_url [] ;;
     lift (raise_for_status response) ;;
     data <- lift (json response) ;;
     status <- lift (Py.getitem data "status") ;;
     status_indicator <- lift (Py.getitem status "indicator") ;;
     overall_status <- lift (STATUS_MAP_get status_indicator "operational") ;;
     incidents <- lift (collect data) ;;
     match incidents with
     | [] =>
         status <- lift (Py.getitem data "status") ;;
         description <- lift (Py.getitem status "description") ;;
         now <- datetime_now ;;
         ret [mk_incident description overall_status
                (Strptime.strftime_dm_HM now) false]
     | _ => ret incidents
     end)
    (fun e =>
       match e with
       | RequestException _ msg => Some (
           print ("Erro ao buscar dados de " ++ base_url ++ ": " ++ msg)%string ;;
           now <- datetime_now ;;
           ret [mk_incident (PStr fetch_error_title) "degraded"
                  (Strptime.strftime_dm_HM now) true])
       | _ => None
       end).

Definition sefaz_api_url : string :=
  "https://monitorsefaz.webmaniabr.com/api/v1/status".

Definition sefaz_headers : list (string * string) :=
  [("User-Agent",
    "Mozilla/5.0 (Windows NT 10.0; Win64; x64) AppleWebKit/537.36 (KHTML, like Gecko) Chrome/91.0.4472.124 Safari/537.36")].

(** The dict literal [{"uf": .., "status": ..}]. *)
Definition mk_state (uf status : string) : pyval :=
  PDict [("uf", PStr uf); ("status", PStr status)].

(** The loop over [data.items()]. *)
Fixpoint states_loop (its : list (string * pyval)) (states_data : list pyval)
  : result (list pyval) :=
  match its with
  | [] => Ok states_data
  | (uf, status_info) :: its' =>
      flag <~ Py.get status_info "status" PNone ;;
      let status := if Py.truthy flag then "up" else "slow" in
      states_loop its' (states_data ++ [mk_state uf status])
  end.

Definition SEFAZ_FALLBACK : list pyval :=
  [mk_state "AC" "up"; mk_state "AL" "up"; mk_state "AP" "up"; mk_state "AM" "up";
   mk_state "BA" "up"; mk_state "CE" "slow"; mk_state "DF" "up"; mk_state "ES" "up";
   mk_state "GO" "up"; mk_state "MA" "up"; mk_state "MT" "up"; mk_state "MS" "up";
   mk_state "MG" "up"; mk_state "PA" "up"; mk_state "PB" "up"; mk_state "PR" "up";
   mk_state "PE" "up"; mk_state "PI" "up"; mk_state "RJ" "up"; mk_state "RN" "up";
   mk_state "RS" "up"; mk_state "RO" "up"; mk_state "RR" "up"; mk_state "SC" "up";
   mk_state "SP" "up"; mk_state "SE" "up"; mk_state "TO" "up"].

Definition fetch_sefaz_status : M (list pyval) :=
  try_except
    (response <- requests_get sefaz_api_url sefaz_headers ;;
     lift (raise_for_status response) ;;
     data <- lift (json response) ;;
     its <- lift (Py.items data) ;;
     lift (states_loop its []))
    (fun e =>
       match e with
       | RequestException _ msg => Some (
           print ("Erro ao buscar status da SEFAZ: " ++ msg)%string ;;
           ret SEFAZ_FALLBACK)
       | _ => None
       end).

Definition output_path : string := "/home/ubuntu/real_time_data.json".

(** The loop over [STATUS_PAGES.items()], filling [real_data]. *)
Fixpoint providers_loop (ps : list (string * string))
  (real_data : list (string * pyval)) : M (list (string * pyval)) :=
  match ps with
  | [] => ret real_data
  | (name, url) :: ps' =>
      incidents <- fetch_status_page_data url ;;
      providers_loop ps' (Py.setitem name (PList incidents) real_data)
  end.

Definition main : M unit :=
  real_data <- providers_loop STATUS_PAGES [] ;;
  states_data <- fetch_sefaz_status ;;
  let output_data :=
    PDict [("REAL_DATA", PDict real_data); ("STATES_DATA", PList states_data)] in
  dump_to_file output_path output_data ;;
  print ("Dados em tempo real salvos em " ++ output_path)%string.

(** ** Reading the records back *)

(** The [status] entry of a record, when it is a string. *)
Definition status_of (rec : pyval) : option string :=
  match rec with
  | PDict d =>
      match Py.assoc "status" d with
      | Some (PStr s) => Some s
      | _ => None
      end
  | _ => None
  end.

Definition uf_of (rec : pyval) : option string :=
  match rec with
  | PDict d =>
      match Py.assoc "uf" d with
      | Some (PStr s) => Some s
      | _ => None
      end
  | _ => None
  end.

Definition has_status (s : string) (rec : pyval) : bool :=
  match status_of rec with
  | Some s' => String.eqb s s'
  | None => false
  end.

(** The keys of a dict, in iteration order. *)
Definition keys (v : pyval) : list string :=
  match v with
  | PDict d => map fst d
  | _ => []
  end.

(** The closed vocabularies of the snapshot. *)
Definition incident_statuses : list string :=
  ["operational"; "degraded"; "investigating"; "scheduled"].
Definition region_statuses : list string := ["up"; "slow"].

(** A world in which every request ends as [r] says. *)
Definition world_of (r : string -> result response) (now : datetime) : world :=
  mkWorld (fun url _ => r url) (fun _ => now) 0 (fun _ => true)
          (fun _ => true) [] [].

Definition ok_response (url : string) (data : pyval) : result response :=
  Ok (mkResponse 200 "OK" url (Ok data)).

(** The three statements every fetch starts with, as one pure reading of
    the world: [requests.get], [raise_for_status], [response.json()]. *)
Definition request_outcome (w : world) (url : string)
  (headers : list (string * string)) : result pyval :=
  response <~ net w url headers ;;
  _ <~ raise_for_status response ;;
  json response.

Definition summary_url (base_url : string) : string :=
  (base_url ++ "/api/v2/summary.json")%string.

(** The reading of the clock a call of [datetime.now()] in [w] gets. *)
Definition now_of (w : world) : datetime := clock w (ticks w).

(** The record of the [except] branch. *)
Definition degraded_incident (now : datetime) : pyval :=
  mk_incident (PStr fetch_error_title) "degraded"
    (Strptime.strftime_dm_HM now) true.

(** Exceptions of the class the [except] clauses name. *)
Definition network_class (e : exn) : bool :=
  match e with
  | RequestException _ _ => true
  | _ => false
  end.

(** The part of [fetch_status_page_data] after the body is parsed. *)
Definition summarize (data : pyval) (now : datetime) : result (list pyval) :=
  status <~ Py.getitem data "status" ;;
  status_indicator <~ Py.getitem status "indicator" ;;
  overall_status <~ STATUS_MAP_get status_indicator "operational" ;;
  incidents <~ collect data ;;
  match incidents with
  | [] =>
      status <~ Py.getitem data "status" ;;
      description <~ Py.getitem status "description" ;;
      Ok [mk_incident description overall_status
            (Strptime.strftime_dm_HM now) false]
  | _ => Ok incidents
  end.

(** ** Predicates used by the statements *)

Definition builtin_only {A} (r : result A) : Prop :=
  match r with
  | Ok _ => True
  | Raise e => network_class e = false
  end.

(** The ways a fetch fails inside [requests]: [requests.get] raises
    (connection failure, timeout), [raise_for_status] raises on the status
    code, or the decoder of [response.json()] raises one of the library's
    errors. *)
Inductive fetch_fails (w : world) (url : string)
  (headers : list (string * string)) : request_kind -> string -> Prop :=
| get_raises k msg :
    net w url headers = Raise (RequestException k msg) ->
    fetch_fails w url headers k msg
| status_raises r :
    net w url headers = Ok r ->
    (400 <= status_code r < 600)%Z ->
    fetch_fails w url headers (HTTPError (status_code r)) (http_error_msg r)
| json_raises r k msg :
    net w url headers = Ok r ->
    raise_for_status r = Ok tt ->
    json r = Raise (RequestException k msg) ->
    fetch_fails w url headers k msg.

Definition hashable (v : pyval) : bool :=
  match v with
  | PList _ | PDict _ => false
  | _ => true
  end.

(** The overall indicator through the lookup table, ["operational"] for an
    indicator the table does not have. *)
Definition indicator_status (ind : pyval) : string :=
  match ind with
  | PStr s =>
      match Py.assoc s STATUS_MAP with
      | Some v => v
      | None => "operational"
      end
  | _ => "operational"
  end.

Definition is_dict (v : pyval) : bool :=
  match v with
  | PDict _ => true
  | _ => false
  end.

(** The health flag of a region entry: the value under ["status"], when the
    entry has one. *)
Definition health_flag (info : pyval) : option pyval :=
  match info with
  | PDict d => Py.assoc "status" d
  | _ => None
  end.

Definition region_status (info : pyval) : string :=
  match health_flag info with
  | Some flag => if Py.truthy flag then "up" else "slow"
  | None => "slow"
  end.

(** A summary of the shape the script expects: a [status] object with an
    indicator and a description, and lists whose kept entries have a name
    and a timestamp that parses. *)
Definition has_key (k : string) (d : list (string * pyval)) : bool :=
  match Py.assoc k d with
  | Some _ => true
  | None => false
  end.

Definition timestamp_ok (d : list (string * pyval)) (k : string) : bool :=
  match Py.assoc k d with
  | Some t => match format_time t with Ok _ => true | Raise _ => false end
  | None => false
  end.

Definition entry_ok (kept : list string) (time_key : string) (v : pyval)
  : bool :=
  match v with
  | PDict d =>
      match Py.assoc "status" d with
      | Some st =>
          if Py.in_strs st kept
          then has_key "name" d && timestamp_ok d time_key
          else true
      | None => false
      end
  | _ => false
  end.

Definition entries_ok (kept : list string) (time_key : string)
  (field : option pyval) : bool :=
  match field with
  | None => true
  | Some (PList xs) => forallb (entry_ok kept time_key) xs
  | Some _ => false
  end.

Definition summary_ok (data : pyval) : bool :=
  match data with
  | PDict d =>
      match Py.assoc "status" d with
      | Some (PDict st) =>
          match Py.assoc "indicator" st with
          | Some ind => hashable ind && has_key "description" st
          | None => false
          end
      | _ => false
      end
      && entries_ok ["investigating"; "identified"; "monitoring"; "in_progress"]
           "created_at" (Py.assoc "incidents" d)
      && entries_ok ["scheduled"; "in_progress"]
           "scheduled_for" (Py.assoc "scheduled_maintenances" d)
  | _ => false
  end.

(** ** Sample inputs *)

Definition sample_now : datetime := mkDatetime 2024 1 2 3 4 5.

(** Every request times out. *)
Definition offline_world : world :=
  world_of (fun _ => Raise (RequestException Timeout "timed out")) sample_now.

(** Every request is answered 503. *)
Definition unavailable_world : world :=
  world_of (fun url => Ok (mkResponse 503 "Service Unavailable" url
                                          (Ok PNone)))
           sample_now.

(** Every request is answered 200 with body [data]. *)
Definition serving (data : pyval) : world :=
  world_of (fun url => ok_response url data) sample_now.

Definition summary_major_outage : pyval :=
  PDict [("status", PDict [("indicator", PStr "major_outage");
                           ("description", PStr "X down")]);
         ("incidents", PList []);
         ("scheduled_maintenances", PList [])].

(** The record the regional loop appends for one entry of the response. *)
Definition region_record (kv : string * pyval) : pyval :=
  mk_state (fst kv) (region_status (snd kv)).

Definition closed_status (vocabulary : list string) (rec : pyval) : Prop :=
  exists s, status_of rec = Some s /\ In s vocabulary.

(** The 27 federative units, in the order of the fallback table. *)
Definition UF_CODES : list string :=
  ["AC"; "AL"; "AP"; "AM"; "BA"; "CE"; "DF"; "ES"; "GO"; "MA"; "MT"; "MS";
   "MG"; "PA"; "PB"; "PR"; "PE"; "PI"; "RJ"; "RN"; "RS"; "RO"; "RR"; "SC";
   "SP"; "SE"; "TO"].

Definition sample_regions : pyval :=
  PDict [("SP", PDict [("status", PBool true)]);
         ("AC", PDict [("status", PBool false)]);
         ("RJ", PDict []);
         ("BA", PDict [("status", PInt 1)])].

Definition kept_incident_statuses : list string :=
  ["investigating"; "identified"; "monitoring"; "in_progress"].

Definition sample_incident (created_at : string) : pyval :=
  PDict [("name", PStr "API latency");
         ("status", PStr "identified");
         ("created_at", PStr created_at)].

Definition sample_maintenance (scheduled_for : string) : pyval :=
  PDict [("name", PStr "Database upgrade");
         ("status", PStr "scheduled");
         ("scheduled_for", PStr scheduled_for)].

Definition summary_with (incidents maintenances : list pyval) : pyval :=
  PDict [("status", PDict [("indicator", PStr "minor");
                           ("description", PStr "Minor Service Outage")]);
         ("incidents", PList incidents);
         ("scheduled_maintenances", PList maintenances)].

(** One identified incident, timestamp with milliseconds. *)
Definition summary_identified : pyval :=
  summary_with [sample_incident "2024-01-02T03:04:05.000Z"] [].

(** The same incident with a timestamp without fractional seconds, and a
    maintenance of that kind. *)
Definition summary_incident_no_fraction : pyval :=
  summary_with [sample_incident "2024-01-02T03:04:05Z"] [].

Definition summary_maintenance_no_fraction : pyval :=
  summary_with [] [sample_maintenance "2024-01-02T03:04:05Z"].

(** The world a call of [fetch_status_page_data] leaves behind. *)
Definition after_fetch (base_url : string) (w : world) : world :=
  snd (fetch_status_page_data base_url w).

Definition url_AnyMarket : string := "https://status.anymarket.com.br".
Definition url_PagSeguro : string := "https://status.pagbank.com.br".
Definition url_Pagarme : string := "https://status.pagar.me".

(** The world in which [main] reaches the regional fetch. *)
Definition after_providers (w : world) : world :=
  after_fetch url_Pagarme (after_fetch url_PagSeguro
                             (after_fetch url_AnyMarket w)).

(** A provider answers when its request fails inside [requests] or brings a
    summary of the expected shape; the regional monitor answers when its
    request fails or brings an object of objects. *)
Definition provider_answers (w : world) (base_url : string) : Prop :=
  (exists k msg, fetch_fails w (summary_url base_url) [] k msg) \/
  (exists data, request_outcome w (summary_url base_url) [] = Ok data /\
                summary_ok data = true).

Definition sefaz_answers (w : world) : Prop :=
  (exists k msg, fetch_fails w sefaz_api_url sefaz_headers k msg) \/
  (exists its, request_outcome w sefaz_api_url sefaz_headers = Ok (PDict its) /\
               forallb (fun kv => is_dict (snd kv)) its = true).

(** ** Effects on the world *)

(** The world after one reading of the clock, and after one printed line. *)
Definition ticked (w : world) : world := snd (datetime_now w).
Definition printed (line : string) (w : world) : world := snd (print line w).

Definition fetch_error_line (base_url msg : string) : string :=
  ("Erro ao buscar dados de " ++ base_url ++ ": " ++ msg)%string.

Definition sefaz_error_line (msg : string) : string :=
  ("Erro ao buscar status da SEFAZ: " ++ msg)%string.

(** The body decoder of an old [requests] raises a plain [ValueError]. *)
Definition garbled_world : world :=
  world_of (fun url => Ok (mkResponse 200 "OK" url (Raise ValueError)))
           sample_now.

(** ** Reading the loops as list comprehensions *)

(** The records a loop body yields on the elements it does not fail on, in
    the order of the list. *)
Definition kept_of (body : pyval -> result (option pyval)) (xs : list pyval)
  : list pyval :=
  flat_map (fun x => match body x with
                     | Ok (Some rec) => [rec]
                     | _ => []
                     end) xs.

(** An object with a [status] outside the list of kept lifecycle statuses. *)
Definition unkept (kept : list string) (v : pyval) : bool :=
  match v with
  | PDict d =>
      match Py.assoc "status" d with
      | Some st => negb (Py.in_strs st kept)
      | None => false
      end
  | _ => false
  end.

(** The [new] entry of a record. *)
Definition new_of (rec : pyval) : option bool :=
  match rec with
  | PDict d =>
      match Py.assoc "new" d with
      | Some (PBool b) => Some b
      | _ => None
      end
  | _ => None
  end.

(** A resolved incident whose other fields are unusable, an element without
    a status, and summaries built from them. *)
Definition resolved_incident : pyval :=
  PDict [("status", PStr "resolved"); ("created_at", PNone)].

Definition statusless_incident : pyval :=
  PDict [("name", PStr "Checkout errors")].

Definition bare_summary : pyval :=
  PDict [("status", PDict [("indicator", PStr "none");
                           ("description", PStr "All Systems Operational")])].

Definition summary_resolved_only : pyval :=
  PDict [("status", PDict [("indicator", PStr "none");
                           ("description", PStr "All Systems Operational")]);
         ("incidents", PList [resolved_incident])].

Definition summary_no_description (incidents : list pyval) : pyval :=
  PDict [("status", PDict [("indicator", PStr "minor")]);
         ("incidents", PList incidents)].

Definition summary_failing_maintenance : pyval :=
  summary_with [sample_incident "2024-01-02T03:04:05.000Z"]
               [sample_maintenance "soon"].

Definition summary_two_kinds : pyval :=
  summary_with [resolved_incident;
                sample_incident "2024-01-02T03:04:05.000Z"]
               [sample_maintenance "2024-02-03T04:05:06.000Z"].

(** A regional body of the expected shape: an object of objects. *)
Definition regions_ok (data : pyval) : bool :=
  match data with
  | PDict its => forallb (fun kv => is_dict (snd kv)) its
  | _ => false
  end.

(** A regional body that gives the flags directly. *)
Definition flat_regions : pyval :=
  PDict [("SP", PDict [("status", PBool true)]); ("AC", PBool true)].

Definition success_line : string :=
  ("Dados em tempo real salvos em " ++ output_path)%string.

(** A world like [w] whose disk refuses every file. *)
Definition read_only (w : world) : world :=
  mkWorld (net w) (clock w) (ticks w) (fun _ => false) (can_write w)
          (stdout w) (files w).

(** A world like [w] with files already there. *)
Definition with_files (fs : list (string * file_content)) (w : world)
  : world :=
  mkWorld (net w) (clock w) (ticks w) (can_open w) (can_write w) (stdout w) fs.

(** The document [main] assembles from what the four fetches returned. *)
Definition snapshot (r1 r2 r3 states : list pyval) : pyval :=
  PDict [("REAL_DATA",
          PDict [("AnyMarket", PList r1); ("PagSeguro", PList r2);
                 ("Pagar.me", PList r3)]);
         ("STATES_DATA", PList states)].

(** The world after the regional fetch of [main]. *)
Definition after_fetches (w : world) : world :=
  snd (fetch_sefaz_status (after_providers w)).

(** The world after [main] wrote [doc] and announced it. *)
Definition written (doc : pyval) (w : world) : world :=
  mkWorld (net w) (clock w) (ticks w) (can_open w) (can_write w)
          (stdout w ++ [success_line])
          (Py.setitem output_path (Dumped doc) (files w)).

(** Every provider answers [summary_major_outage]; the regional monitor
    answers [sample_regions]. *)
Definition healthy_world : world :=
  world_of (fun url => if String.eqb url sefaz_api_url
                       then ok_response url sample_regions
                       else ok_response url summary_major_outage)
           sample_now.

(** ** Expressions that cannot end on a given character *)

(** The last class of the alternative refuses [z]. *)
Fixpoint alt_rejects (z : N) (alt : list Strptime.cclass) : bool :=
  match alt with
  | [] => false
  | [c] => negb (c z)
  | _ :: alt' => alt_rejects z alt'
  end.

Definition item_rejects (z : N) (it : Strptime.item) : bool :=
  match it with
  | Strptime.Lit c => negb (c z)
  | Strptime.Group alts => forallb (alt_rejects z) alts
  end.

(** The last item of the expression refuses [z]. *)
Fixpoint items_reject (z : N) (its : list Strptime.item) : bool :=
  match its with
  | [] => false
  | [it] => item_rejects z it
  | _ :: its' => items_reject z its'
  end.

(** A description with a lone surrogate, U+D800, as [json.loads] builds it
    from an escape, and a world whose providers answer with it. *)
Definition lone_surrogate : string :=
  String "237"%char (String "160"%char (String "128"%char EmptyString)).

Definition summary_surrogate : pyval :=
  PDict [("status", PDict [("indicator", PStr "none");
                           ("description", PStr lone_surrogate)])].

Definition tainted_world : world :=
  world_of (fun url => if String.eqb url sefaz_api_url
                       then ok_response url sample_regions
                       else ok_response url summary_surrogate)
           sample_now.

(** A world like [w] whose disk takes no text. *)
Definition disk_full (w : world) : world :=
  mkWorld (net w) (clock w) (ticks w) (can_open w) (fun _ => false)
          (stdout w) (files w).

(** The four fetches of [main] return these lists in [w]. *)
Definition fetches_return (w : world) (r1 r2 r3 states : list pyval) : Prop :=
  fst (fetch_status_page_data url_AnyMarket w) = Ok r1 /\
  fst (fetch_status_page_data url_PagSeguro (after_fetch url_AnyMarket w))
  = Ok r2 /\
  fst (fetch_status_page_data url_Pagarme
         (after_fetch url_PagSeguro (after_fetch url_AnyMarket w)))
  = Ok r3 /\
  fst (fetch_sefaz_status (after_providers w)) = Ok states.

Example strptime_ex1 :
  Strptime.strptime_iso "2024-01-02T03:04:05" = Ok (mkDatetime 2024%Z 1%Z 2%Z 3%Z 4%Z 5%Z).
Proof. vm_compute. reflexivity. Qed.
Example strptime_ex2 :
  Strptime.strptime_iso "2024-01-02T03:04:05Z" = Raise ValueError.
Proof. vm_compute. reflexivity. Qed.
Example strptime_ex3 :
  Strptime.strptime_iso "2024-2-29t3:4:5" = Ok (mkDatetime 2024%Z 2%Z 29%Z 3%Z 4%Z 5%Z).
Proof. vm_compute. reflexivity. Qed.
Example strptime_ex4 :
  Strptime.strptime_iso "2023-02-29T03:04:05" = Raise ValueError.
Proof. vm_compute. reflexivity. Qed.
Example strftime_ex1 :
  Strptime.strftime_dm_HM (mkDatetime 2024%Z 1%Z 2%Z 3%Z 4%Z 5%Z) = "02/01 03:04".
Proof. vm_compute. reflexivity. Qed.

Local Open Scope list_scope.

(** ** Running the monad *)

Ltac run :=
  unfold fetch_status_page_data, fetch_sefaz_status, try_except, bind,
    requests_get, lift, ret, datetime_now, print, dump_to_file,
    request_outcome, summary_url, now_of, rbind in *;
  cbn [fst snd] in *.

(** Case analysis on an innermost scrutinee of the goal. *)
Ltac destr :=
  match goal with
  | |- context [match ?x with _ => _ end] =>
      lazymatch x with
      | context [match _ with _ => _ end] => fail
      | _ => destruct x eqn:?
      end
  end.

(** ** The pure part raises built-in exceptions only *)

Lemma builtin_only_rbind {A B} (r : result A) (k : A -> result B) :
  builtin_only r -> (forall a, builtin_only (k a)) -> builtin_only (rbind r k).
Proof.
  destruct r as [a|e]; cbn; intros Hr Hk; [apply Hk | exact Hr].
Qed.

Lemma builtin_only_getitem v k : builtin_only (Py.getitem v k).
Proof.
  destruct v; cbn; try reflexivity.
  destruct (Py.assoc k d); cbn; reflexivity || exact I.
Qed.

Lemma builtin_only_get v k dflt : builtin_only (Py.get v k dflt).
Proof.
  destruct v; cbn; try reflexivity.
  destruct (Py.assoc k d); exact I.
Qed.

Lemma builtin_only_iter v : builtin_only (Py.iter v).
Proof. destruct v; cbn; reflexivity || exact I. Qed.

Lemma builtin_only_items v : builtin_only (Py.items v).
Proof. destruct v; cbn; reflexivity || exact I. Qed.

Lemma builtin_only_split v c : builtin_only (Py.split v c).
Proof. destruct v; cbn; reflexivity || exact I. Qed.

Lemma builtin_only_index0 {A} (l : list A) : builtin_only (Py.index0 l).
Proof. destruct l; cbn; reflexivity || exact I. Qed.

Lemma builtin_only_strptime s : builtin_only (Strptime.strptime_iso s).
Proof.
  unfold Strptime.strptime_iso.
  repeat (destr; cbn; try reflexivity; try exact I).
Qed.

Lemma builtin_only_STATUS_MAP_get v dflt : builtin_only (STATUS_MAP_get v dflt).
Proof.
  unfold STATUS_MAP_get, builtin_only.
  destruct v; try reflexivity; try exact I.
  destruct (Py.assoc s STATUS_MAP); exact I.
Qed.

Create HintDb py.

#[local] Hint Resolve builtin_only_getitem builtin_only_get builtin_only_iter
  builtin_only_items builtin_only_split builtin_only_index0
  builtin_only_strptime builtin_only_STATUS_MAP_get : py.

Ltac builtin :=
  repeat first
    [ apply builtin_only_rbind; [solve [auto with py] | intros]
    | solve [auto with py]
    | exact I
    | destr ].

Lemma builtin_only_format_time v : builtin_only (format_time v).
Proof. unfold format_time. builtin. Qed.

#[local] Hint Resolve builtin_only_format_time : py.

Lemma builtin_only_incident_body v : builtin_only (incident_body v).
Proof. unfold incident_body. builtin. Qed.

Lemma builtin_only_maintenance_body v : builtin_only (maintenance_body v).
Proof. unfold maintenance_body. builtin. Qed.

Lemma builtin_only_for_append body :
  (forall x, builtin_only (body x)) ->
  forall xs acc, builtin_only (for_append body xs acc).
Proof.
  intros Hb xs; induction xs as [|x xs IH]; intros acc; cbn; [exact I|].
  apply builtin_only_rbind; [apply Hb | intros r; apply IH].
Qed.

#[local] Hint Resolve builtin_only_incident_body builtin_only_maintenance_body
  builtin_only_for_append : py.

Lemma builtin_only_incidents_loop data acc :
  builtin_only (incidents_loop data acc).
Proof. unfold incidents_loop. builtin. Qed.

Lemma builtin_only_maintenances_loop data acc :
  builtin_only (maintenances_loop data acc).
Proof. unfold maintenances_loop. builtin. Qed.

#[local] Hint Resolve builtin_only_incidents_loop
  builtin_only_maintenances_loop : py.

Lemma builtin_only_collect data : builtin_only (collect data).
Proof. unfold collect. builtin. Qed.

Lemma builtin_only_states_loop its :
  forall acc, builtin_only (states_loop its acc).
Proof.
  induction its as [|[uf info] its IH]; intros acc; cbn; [exact I|].
  apply builtin_only_rbind; [auto with py | intros flag; apply IH].
Qed.

#[local] Hint Resolve builtin_only_collect builtin_only_states_loop : py.

Lemma builtin_only_summarize data now : builtin_only (summarize data now).
Proof. unfold summarize. builtin. Qed.

(** An equation of a built-in-only computation with a network error is
    absurd. *)
Lemma builtin_only_absurd {A} (r : result A) k msg :
  builtin_only r -> r = Raise (RequestException k msg) -> False.
Proof. intros H E; rewrite E in H; discriminate H. Qed.

Ltac absurd_network :=
  match goal with
  | H : _ = Raise (RequestException _ _) |- _ =>
      exfalso; eapply builtin_only_absurd; [ | exact H]; solve [auto with py]
  end.

Lemma fetch_status_page_data_eq (base_url : string) (w : world) :
  fst (fetch_status_page_data base_url w) =
  match request_outcome w (summary_url base_url) [] with
  | Ok data => summarize data (now_of w)
  | Raise (RequestException _ _) => Ok [degraded_incident (now_of w)]
  | Raise e => Raise e
  end.
Proof.
  unfold summarize. run.
  repeat (destr; cbn [fst snd] in *; try reflexivity; try discriminate;
          try absurd_network).
Qed.

Lemma fetch_fails_outcome w url headers k msg :
  fetch_fails w url headers k msg <->
  request_outcome w url headers = Raise (RequestException k msg).
Proof.
  unfold request_outcome, rbind, raise_for_status. split.
  - intros [k' msg' H | r H Hc | r k' msg' H Hs Hj]; rewrite H.
    + reflexivity.
    + replace ((400 <=? status_code r) && (status_code r <? 600))%Z with true
        by (symmetry; apply andb_true_iff; split;
            [apply Z.leb_le | apply Z.ltb_lt]; lia).
      reflexivity.
    + unfold raise_for_status in Hs. rewrite Hs. exact Hj.
  - destruct (net w url headers) as [r|e] eqn:Hn.
    + destruct ((400 <=? status_code r) && (status_code r <? 600))%Z eqn:Hc.
      * intros E; injection E as <- <-.
        apply andb_true_iff in Hc as [H1 H2].
        apply Z.leb_le in H1. apply Z.ltb_lt in H2.
        apply status_raises; [exact Hn | lia].
      * intros E. eapply json_raises; [exact Hn | | exact E].
        unfold raise_for_status. rewrite Hc. reflexivity.
    + intros E; injection E as ->. apply get_raises. exact Hn.
Qed.

(** C2: a fetch that fails with a network-class error (the request raises,
    the status is an error status, or the decoder raises a library error) is
    caught: the function returns exactly one record, with the generic
    warning as title, status "degraded", the current time as dd/mm HH:MM and
    new = true. *)
Theorem fetch_status_page_data_network_error :
  forall (base_url : string) (w : world) (k : request_kind) (msg : string),
    fetch_fails w (summary_url base_url) [] k msg ->
    fst (fetch_status_page_data base_url w) =
    Ok [PDict [("title",
                PStr "Erro ao carregar status. Dados podem estar desatualizados.");
               ("status", PStr "degraded");
               ("time", PStr (Strptime.strftime_dm_HM (now_of w)));
               ("new", PBool true)]].
Proof.
  intros base_url w k msg H. apply fetch_fails_outcome in H.
  rewrite fetch_status_page_data_eq, H. reflexivity.
Qed.

Lemma fetch_status_page_data_network_error_witness :
  fetch_fails offline_world (summary_url "https://status.pagar.me") []
    Timeout "timed out" /\
  fetch_fails unavailable_world (summary_url "https://status.pagar.me") []
    (HTTPError 503)
    "503 Server Error: Service Unavailable for url: https://status.pagar.me/api/v2/summary.json" /\
  fst (fetch_status_page_data "https://status.pagar.me" offline_world) =
  Ok [PDict [("title",
              PStr "Erro ao carregar status. Dados podem estar desatualizados.");
             ("status", PStr "degraded");
             ("time", PStr "02/01 03:04");
             ("new", PBool true)]].
Proof.
  split; [apply get_raises; reflexivity|].
  split.
  { refine (status_raises unavailable_world
              (summary_url "https://status.pagar.me") []
              (mkResponse 503 "Service Unavailable"
                 (summary_url "https://status.pagar.me") (Ok PNone))
              eq_refl _).
    cbn; lia. }
  apply (fetch_status_page_data_network_error
           "https://status.pagar.me" offline_world Timeout "timed out").
  apply get_raises; reflexivity.
Defined.

(** The empty-after-filter path of [summarize]. *)
Lemma summarize_synthetic data status ind desc now :
  Py.getitem data "status" = Ok status ->
  Py.getitem status "indicator" = Ok ind ->
  Py.getitem status "description" = Ok desc ->
  hashable ind = true ->
  collect data = Ok [] ->
  summarize data now =
  Ok [mk_incident desc (indicator_status ind)
        (Strptime.strftime_dm_HM now) false].
Proof.
  intros Hs Hi Hd Hh Hc. unfold summarize, rbind.
  rewrite Hs, Hi, Hc, Hd.
  unfold STATUS_MAP_get, indicator_status.
  destruct ind; try discriminate Hh; try reflexivity.
  destruct (Py.assoc s STATUS_MAP); reflexivity.
Qed.

(** C3: when the body parses and both loops leave the list empty, the
    function returns exactly one record: title the overall description,
    status the overall indicator through the lookup table (operational for
    an indicator the table lacks), time the current time, new = false. *)
Theorem fetch_status_page_data_no_incidents :
  forall (base_url : string) (w : world) (data status ind desc : pyval),
    request_outcome w (summary_url base_url) [] = Ok data ->
    Py.getitem data "status" = Ok status ->
    Py.getitem status "indicator" = Ok ind ->
    Py.getitem status "description" = Ok desc ->
    hashable ind = true ->
    collect data = Ok [] ->
    fst (fetch_status_page_data base_url w) =
    Ok [PDict [("title", desc);
               ("status", PStr (indicator_status ind));
               ("time", PStr (Strptime.strftime_dm_HM (now_of w)));
               ("new", PBool false)]].
Proof.
  intros base_url w data status ind desc Hr Hs Hi Hd Hh Hc.
  rewrite fetch_status_page_data_eq, Hr.
  exact (summarize_synthetic _ _ _ _ _ Hs Hi Hd Hh Hc).
Qed.

(** The example of the specification: indicator "major_outage", description
    "X down", no incidents and no maintenances. *)
Lemma fetch_status_page_data_no_incidents_witness :
  indicator_status (PStr "major_outage") = "investigating" /\
  indicator_status (PStr "critical") = "operational" /\
  fst (fetch_status_page_data "https://status.anymarket.com.br"
         (serving summary_major_outage)) =
  Ok [PDict [("title", PStr "X down");
             ("status", PStr "investigating");
             ("time", PStr "02/01 03:04");
             ("new", PBool false)]].
Proof.
  split; [reflexivity|]. split; [reflexivity|].
  apply (fetch_status_page_data_no_incidents
           "https://status.anymarket.com.br" (serving summary_major_outage)
           summary_major_outage
           (PDict [("indicator", PStr "major_outage");
                   ("description", PStr "X down")])
           (PStr "major_outage") (PStr "X down"));
    reflexivity.
Defined.

(** ** The loops *)

Lemma STATUS_MAP_values s v :
  Py.assoc s STATUS_MAP = Some v -> In v incident_statuses.
Proof.
  cbn. intros H.
  repeat match type of H with
         | (if ?c then _ else _) = _ =>
             destruct c; [injection H as <-; cbn; tauto|]
         end.
  discriminate H.
Qed.

Lemma indicator_status_closed ind : In (indicator_status ind) incident_statuses.
Proof.
  destruct ind; try (cbn; tauto).
  unfold indicator_status.
  destruct (Py.assoc s STATUS_MAP) eqn:E; [|cbn; tauto].
  exact (STATUS_MAP_values _ _ E).
Qed.

(** The four lifecycle statuses the first loop keeps all come out of the
    lookup as "investigating". *)
Lemma kept_incident_status st :
  Py.in_strs st ["investigating"; "identified"; "monitoring"; "in_progress"]
  = true ->
  STATUS_MAP_get st "investigating" = Ok "investigating".
Proof.
  destruct st; try discriminate. cbn [Py.in_strs existsb]. intros H.
  repeat (apply orb_true_iff in H as [H|H];
          [apply String.eqb_eq in H; subst s; reflexivity|]).
  discriminate H.
Qed.

Lemma incident_body_record x rec :
  incident_body x = Ok (Some rec) ->
  exists title time, rec = mk_incident title "investigating" time true.
Proof.
  unfold incident_body, rbind.
  destruct (Py.getitem x "status") as [st|] eqn:Hst; [|discriminate].
  destruct (Py.in_strs st _) eqn:Hk; [|discriminate].
  rewrite (kept_incident_status _ Hk).
  destruct (Py.getitem x "name") as [title|]; [|discriminate].
  destruct (Py.getitem x "created_at") as [c|]; [|discriminate].
  destruct (format_time c) as [time|]; [|discriminate].
  intros E; injection E as <-. eauto.
Qed.

Lemma maintenance_body_record x rec :
  maintenance_body x = Ok (Some rec) ->
  exists title time, rec = mk_incident title "scheduled" time true.
Proof.
  unfold maintenance_body, rbind.
  destruct (Py.getitem x "status") as [st|]; [|discriminate].
  destruct (Py.in_strs st _); [|discriminate].
  destruct (Py.getitem x "name") as [title|]; [|discriminate].
  destruct (Py.getitem x "scheduled_for") as [c|]; [|discriminate].
  destruct (format_time c) as [time|]; [|discriminate].
  intros E; injection E as <-. eauto.
Qed.

(** A loop only appends, and what it appends comes from its body. *)
Lemma for_append_inv (P : pyval -> Prop) body :
  (forall x rec, body x = Ok (Some rec) -> P rec) ->
  forall xs acc res,
    for_append body xs acc = Ok res ->
    exists l, res = acc ++ l /\ Forall P l.
Proof.
  intros Hb xs; induction xs as [|x xs IH]; intros acc res; cbn.
  - intros E; injection E as <-. exists []. rewrite app_nil_r. auto.
  - unfold rbind. destruct (body x) as [[rec|]|] eqn:Hx; [| |discriminate].
    + intros E. apply IH in E as (l & -> & Hl).
      exists (rec :: l). rewrite <- app_assoc. split; [reflexivity|].
      constructor; [exact (Hb _ _ Hx) | exact Hl].
    + apply IH.
Qed.

Lemma incidents_loop_inv data acc res :
  incidents_loop data acc = Ok res ->
  exists l, res = acc ++ l /\
            Forall (fun rec => exists title time,
                        rec = mk_incident title "investigating" time true) l.
Proof.
  unfold incidents_loop, rbind.
  destruct (Py.get data "incidents" (PList [])) as [l|]; [|discriminate].
  destruct (Py.iter l) as [xs|]; [|discriminate].
  apply for_append_inv. exact incident_body_record.
Qed.

Lemma maintenances_loop_inv data acc res :
  maintenances_loop data acc = Ok res ->
  exists l, res = acc ++ l /\
            Forall (fun rec => exists title time,
                        rec = mk_incident title "scheduled" time true) l.
Proof.
  unfold maintenances_loop, rbind.
  destruct (Py.get data "scheduled_maintenances" (PList [])) as [l|];
    [|discriminate].
  destruct (Py.iter l) as [xs|]; [|discriminate].
  apply for_append_inv. exact maintenance_body_record.
Qed.

(** What [summarize] returns: the kept incidents followed by the kept
    maintenances, or the one record for the overall status when there are
    none. *)
Lemma summarize_inv data now recs :
  summarize data now = Ok recs ->
  exists incs maints,
    incidents_loop data [] = Ok incs /\
    maintenances_loop data incs = Ok (incs ++ maints) /\
    Forall (fun rec => exists title time,
                rec = mk_incident title "investigating" time true) incs /\
    Forall (fun rec => exists title time,
                rec = mk_incident title "scheduled" time true) maints /\
    ((incs ++ maints <> [] /\ recs = incs ++ maints) \/
     (incs ++ maints = [] /\
      exists status ind desc,
        Py.getitem data "status" = Ok status /\
        Py.getitem status "indicator" = Ok ind /\
        Py.getitem status "description" = Ok desc /\
        recs = [mk_incident desc (indicator_status ind)
                  (Strptime.strftime_dm_HM now) false])).
Proof.
  unfold summarize, collect, rbind.
  destruct (Py.getitem data "status") as [status|] eqn:Hs; [|discriminate].
  destruct (Py.getitem status "indicator") as [ind|] eqn:Hi; [|discriminate].
  destruct (STATUS_MAP_get ind "operational") as [overall|] eqn:Ho;
    [|discriminate].
  destruct (incidents_loop data []) as [incs|] eqn:H1; [|discriminate].
  destruct (maintenances_loop data incs) as [all|] eqn:H2; [|discriminate].
  destruct (incidents_loop_inv _ _ _ H1) as (l1 & E1 & F1).
  destruct (maintenances_loop_inv _ _ _ H2) as (l2 & E2 & F2).
  cbn in E1. subst incs all.
  intros H. exists l1, l2. repeat split; try assumption.
  destruct (l1 ++ l2) as [|r rs] eqn:Hall.
  - right. split; [reflexivity|].
    destruct (Py.getitem status "description") as [desc|] eqn:Hd;
      [|discriminate].
    injection H as <-. exists status, ind, desc. repeat split; try assumption.
    unfold STATUS_MAP_get, indicator_status in *.
    destruct ind; try discriminate Ho; try (injection Ho as <-; reflexivity).
    destruct (Py.assoc s STATUS_MAP); injection Ho as <-; reflexivity.
  - left. injection H as <-. split; [discriminate | reflexivity].
Qed.

(** ** Well-shaped summaries go through *)

Lemma incident_body_total x :
  entry_ok ["investigating"; "identified"; "monitoring"; "in_progress"]
    "created_at" x = true ->
  exists r, incident_body x = Ok r.
Proof.
  destruct x; try discriminate. unfold entry_ok, incident_body, rbind.
  cbn [Py.getitem].
  destruct (Py.assoc "status" d) as [st|]; [|discriminate].
  destruct (Py.in_strs st _) eqn:Hk; [|eauto].
  rewrite (kept_incident_status _ Hk).
  unfold has_key, timestamp_ok.
  destruct (Py.assoc "name" d); cbn [andb]; [|discriminate].
  destruct (Py.assoc "created_at" d) as [t|]; [|discriminate].
  destruct (format_time t); [eauto | discriminate].
Qed.

Lemma maintenance_body_total x :
  entry_ok ["scheduled"; "in_progress"] "scheduled_for" x = true ->
  exists r, maintenance_body x = Ok r.
Proof.
  destruct x; try discriminate. unfold entry_ok, maintenance_body, rbind.
  cbn [Py.getitem].
  destruct (Py.assoc "status" d) as [st|]; [|discriminate].
  destruct (Py.in_strs st _) eqn:Hk; [|eauto].
  unfold has_key, timestamp_ok.
  destruct (Py.assoc "name" d); cbn [andb]; [|discriminate].
  destruct (Py.assoc "scheduled_for" d) as [t|]; [|discriminate].
  destruct (format_time t); [eauto | discriminate].
Qed.

Lemma for_append_total (ok : pyval -> bool) body :
  (forall x, ok x = true -> exists r, body x = Ok r) ->
  forall xs acc, forallb ok xs = true ->
                 exists res, for_append body xs acc = Ok res.
Proof.
  intros Hb xs; induction xs as [|x xs IH]; intros acc; cbn; [eauto|].
  intros H. apply andb_true_iff in H as [Hx Hxs].
  destruct (Hb _ Hx) as [r ->]. cbn. apply IH, Hxs.
Qed.

Lemma entries_loop_total kept key field body data acc :
  (forall x, entry_ok kept key x = true -> exists r, body x = Ok r) ->
  entries_ok kept key (Py.assoc field data) = true ->
  exists res,
    (l <~ Py.get (PDict data) field (PList []) ;;
     xs <~ Py.iter l ;;
     for_append body xs acc) = Ok res.
Proof.
  intros Hb. unfold entries_ok, rbind. cbn [Py.get].
  destruct (Py.assoc field data) as [v|]; [|cbn; eauto].
  destruct v; try discriminate. cbn [Py.iter].
  apply for_append_total, Hb.
Qed.

Lemma summarize_total data now :
  summary_ok data = true ->
  exists rec recs, summarize data now = Ok (rec :: recs).
Proof.
  destruct data; try discriminate. unfold summary_ok.
  intros H. apply andb_true_iff in H as [H H3].
  apply andb_true_iff in H as [H1 H2].
  unfold summarize, collect, rbind. cbn [Py.getitem].
  destruct (Py.assoc "status" d) as [[]|]; try discriminate.
  cbn [Py.getitem].
  destruct (Py.assoc "indicator" d0) as [ind|]; [|discriminate].
  apply andb_true_iff in H1 as [Hh Hd]. unfold has_key in Hd.
  destruct (Py.assoc "description" d0) as [desc|]; [|discriminate].
  assert (exists o, STATUS_MAP_get ind "operational" = Ok o) as [o ->].
  { unfold STATUS_MAP_get. destruct ind; try discriminate; eauto.
    destruct (Py.assoc s STATUS_MAP); eauto. }
  destruct (entries_loop_total _ _ "incidents" incident_body d []
              incident_body_total H2) as [incs Hi].
  unfold incidents_loop, maintenances_loop, rbind in *. rewrite Hi.
  destruct (entries_loop_total _ _ "scheduled_maintenances" maintenance_body
              d incs maintenance_body_total H3) as [all Ha].
  unfold rbind in Ha. rewrite Ha.
  destruct all; eauto.
Qed.

(** C1: the outcome of [fetch_status_page_data] is a list with at least one
    record or an exception outside the network class; a failed fetch
    returns one record, and a summary of the expected shape returns a
    non-empty list. *)
Theorem fetch_status_page_data_nonempty :
  forall (base_url : string) (w : world),
    ((exists rec recs,
         fst (fetch_status_page_data base_url w) = Ok (rec :: recs)) \/
     (exists e,
         fst (fetch_status_page_data base_url w) = Raise e /\
         network_class e = false)) /\
    (forall k msg,
        fetch_fails w (summary_url base_url) [] k msg ->
        exists rec, fst (fetch_status_page_data base_url w) = Ok [rec]) /\
    (forall data,
        request_outcome w (summary_url base_url) [] = Ok data ->
        summary_ok data = true ->
        exists rec recs,
          fst (fetch_status_page_data base_url w) = Ok (rec :: recs)).
Proof.
  intros base_url w. rewrite fetch_status_page_data_eq. repeat split.
  - destruct (request_outcome w (summary_url base_url) []) as [data|e] eqn:Hr.
    + destruct (summarize data (now_of w)) as [recs|e] eqn:Hs.
      * left. apply summarize_inv in Hs
          as (incs & maints & _ & _ & _ & _ & [[Hne ->] | [_ H]]).
        -- destruct (incs ++ maints); [contradiction|eauto].
        -- destruct H as (? & ? & ? & _ & _ & _ & ->). eauto.
      * right. exists e. split; [reflexivity|].
        pose proof (builtin_only_summarize data (now_of w)) as B.
        rewrite Hs in B. exact B.
    + destruct e; try (right; eexists; split; [reflexivity|reflexivity]).
      left. eauto.
  - intros k msg H. apply fetch_fails_outcome in H. rewrite H. eauto.
  - intros data Hr Hok. rewrite Hr. apply summarize_total, Hok.
Qed.

Lemma fetch_status_page_data_nonempty_witness :
  In "https://status.pagbank.com.br" (map snd STATUS_PAGES) /\
  (exists rec,
      fst (fetch_status_page_data "https://status.pagbank.com.br"
             offline_world) = Ok [rec]) /\
  (exists rec recs,
      fst (fetch_status_page_data "https://status.pagbank.com.br"
             (serving summary_major_outage)) = Ok (rec :: recs)).
Proof.
  split; [cbn; tauto|]. split.
  - apply (proj1 (proj2 (fetch_status_page_data_nonempty
                           "https://status.pagbank.com.br" offline_world))
             Timeout "timed out").
    apply get_raises; reflexivity.
  - apply (proj2 (proj2 (fetch_status_page_data_nonempty
                           "https://status.pagbank.com.br"
                           (serving summary_major_outage)))
             summary_major_outage); reflexivity.
Defined.

(** ** The regional client *)

Lemma fetch_sefaz_status_eq (w : world) :
  fst (fetch_sefaz_status w) =
  match request_outcome w sefaz_api_url sefaz_headers with
  | Ok data => its <~ Py.items data ;; states_loop its []
  | Raise (RequestException _ _) => Ok SEFAZ_FALLBACK
  | Raise e => Raise e
  end.
Proof.
  run.
  repeat (destr; cbn [fst snd] in *; try reflexivity; try discriminate;
          try absurd_network).
Qed.

(** C4: a regional fetch that fails with a network-class error returns the
    fixed fallback table: 27 records, one per federative unit, 26 of them
    "up" and one, CE, "slow". *)
Theorem fetch_sefaz_status_fallback :
  forall (w : world) (k : request_kind) (msg : string),
    fetch_fails w sefaz_api_url sefaz_headers k msg ->
    exists recs,
      fst (fetch_sefaz_status w) = Ok recs /\
      recs = SEFAZ_FALLBACK /\
      length recs = 27 /\
      map uf_of recs = map Some UF_CODES /\
      length (filter (has_status "up") recs) = 26 /\
      filter (has_status "slow") recs = [mk_state "CE" "slow"] /\
      NoDup UF_CODES.
Proof.
  intros w k msg H. apply fetch_fails_outcome in H.
  exists SEFAZ_FALLBACK. rewrite fetch_sefaz_status_eq, H.
  repeat split.
  repeat (constructor; [cbn; intuition discriminate|]). constructor.
Qed.

Lemma fetch_sefaz_status_fallback_witness :
  fetch_fails unavailable_world sefaz_api_url sefaz_headers
    (HTTPError 503)
    "503 Server Error: Service Unavailable for url: https://monitorsefaz.webmaniabr.com/api/v1/status" /\
  exists recs,
    fst (fetch_sefaz_status unavailable_world) = Ok recs /\
    recs = SEFAZ_FALLBACK /\
    length recs = 27 /\
    map uf_of recs = map Some UF_CODES /\
    length (filter (has_status "up") recs) = 26 /\
    filter (has_status "slow") recs = [mk_state "CE" "slow"] /\
    NoDup UF_CODES.
Proof.
  assert (H : fetch_fails unavailable_world sefaz_api_url sefaz_headers
                (HTTPError 503)
                "503 Server Error: Service Unavailable for url: https://monitorsefaz.webmaniabr.com/api/v1/status").
  { refine (status_raises unavailable_world sefaz_api_url sefaz_headers
              (mkResponse 503 "Service Unavailable" sefaz_api_url (Ok PNone))
              eq_refl _).
    cbn; lia. }
  split; [exact H|].
  exact (fetch_sefaz_status_fallback unavailable_world _ _ H).
Defined.

(** The regional loop on a response whose entries are all objects. *)
Lemma states_loop_ok its :
  forall acc,
    forallb (fun kv => is_dict (snd kv)) its = true ->
    states_loop its acc = Ok (acc ++ map region_record its).
Proof.
  induction its as [|[uf info] its IH]; intros acc; cbn [states_loop map].
  - rewrite app_nil_r. reflexivity.
  - cbn [forallb snd]. intros H. apply andb_true_iff in H as [Hd Hits].
    destruct info; try discriminate Hd.
    unfold rbind, region_record, region_status, health_flag.
    cbn [Py.get fst snd].
    destruct (Py.assoc "status" d); rewrite IH by exact Hits;
      rewrite <- app_assoc; reflexivity.
Qed.

(** An entry that is not an object stops the loop with an exception. *)
Lemma states_loop_inv its :
  forall acc res,
    states_loop its acc = Ok res ->
    forallb (fun kv => is_dict (snd kv)) its = true.
Proof.
  induction its as [|[uf info] its IH]; intros acc res; cbn; [reflexivity|].
  destruct info; try discriminate. unfold rbind. cbn [Py.get is_dict andb].
  destruct (Py.assoc "status" d); apply IH.
Qed.

Lemma region_record_status kv :
  status_of (region_record kv) = Some (region_status (snd kv)).
Proof. reflexivity. Qed.

Lemma region_status_closed info : In (region_status info) region_statuses.
Proof.
  unfold region_status.
  destruct (health_flag info) as [flag|]; [destruct (Py.truthy flag)|];
    cbn; tauto.
Qed.

(** C7: a regional response that is an object of objects gives one record
    per key, in the order of the object: "up" for a truthy health flag,
    "slow" for a falsy or missing one. *)
Theorem fetch_sefaz_status_success :
  forall (w : world) (its : list (string * pyval)),
    request_outcome w sefaz_api_url sefaz_headers = Ok (PDict its) ->
    forallb (fun kv => is_dict (snd kv)) its = true ->
    exists recs,
      fst (fetch_sefaz_status w) = Ok recs /\
      map uf_of recs = map Some (keys (PDict its)) /\
      Forall2 (fun kv rec =>
                 rec = PDict [("uf", PStr (fst kv));
                              ("status", PStr (region_status (snd kv)))] /\
                 (region_status (snd kv) = "up" <->
                  exists flag, health_flag (snd kv) = Some flag /\
                               Py.truthy flag = true) /\
                 (region_status (snd kv) = "slow" <->
                  health_flag (snd kv) = None \/
                  exists flag, health_flag (snd kv) = Some flag /\
                               Py.truthy flag = false))
              its recs.
Proof.
  intros w its Hr Hd. exists (map region_record its).
  rewrite fetch_sefaz_status_eq, Hr. cbn [Py.items rbind].
  rewrite states_loop_ok by exact Hd. split; [reflexivity|]. split.
  - cbn [keys]. rewrite !map_map. reflexivity.
  - clear. induction its as [|kv its IH]; cbn [map]; constructor; [|exact IH].
    split; [reflexivity|]. unfold region_status.
    destruct (health_flag (snd kv)) as [flag|];
      [destruct (Py.truthy flag) eqn:Ht|].
    + split; split; intros H; try discriminate H; eauto.
      destruct H as [H|(f & E & Hf)]; [discriminate H|].
      injection E as <-. congruence.
    + split; split; intros H; try discriminate H; eauto.
      destruct H as (f & E & Hf). injection E as <-. congruence.
    + split; split; intros H; try discriminate H; eauto.
      destruct H as (f & E & _). discriminate E.
Qed.

Lemma fetch_sefaz_status_success_witness :
  fst (fetch_sefaz_status (serving sample_regions)) =
  Ok [mk_state "SP" "up"; mk_state "AC" "slow"; mk_state "RJ" "slow";
      mk_state "BA" "up"] /\
  exists recs,
    fst (fetch_sefaz_status (serving sample_regions)) = Ok recs /\
    map uf_of recs = [Some "SP"; Some "AC"; Some "RJ"; Some "BA"].
Proof.
  split; [reflexivity|].
  destruct (fetch_sefaz_status_success (serving sample_regions)
              [("SP", PDict [("status", PBool true)]);
               ("AC", PDict [("status", PBool false)]);
               ("RJ", PDict []);
               ("BA", PDict [("status", PInt 1)])]
              eq_refl eq_refl) as (recs & H1 & H2 & _).
  exists recs. split; [exact H1 | exact H2].
Defined.

(** ** The vocabulary of the records *)

Lemma closed_status_mk_incident title status time new :
  In status incident_statuses ->
  closed_status incident_statuses (mk_incident title status time new).
Proof. intros H. exists status. split; [reflexivity | exact H]. Qed.

(** C5: every record [fetch_status_page_data] returns has its status in
    {operational, degraded, investigating, scheduled}, and every record
    [fetch_sefaz_status] returns has its status in {up, slow}. *)
Theorem statuses_closed :
  forall (w : world),
    (forall base_url recs,
        fst (fetch_status_page_data base_url w) = Ok recs ->
        Forall (closed_status incident_statuses) recs) /\
    (forall recs,
        fst (fetch_sefaz_status w) = Ok recs ->
        Forall (closed_status region_statuses) recs).
Proof.
  intros w. split.
  - intros base_url recs. rewrite fetch_status_page_data_eq.
    destruct (request_outcome w (summary_url base_url) []) as [data|e].
    + intros H. apply summarize_inv in H
        as (incs & maints & _ & _ & F1 & F2 & [[_ ->] | [_ H]]).
      * apply Forall_app. split.
        -- eapply Forall_impl; [|exact F1]. intros rec (t & tm & ->).
           apply closed_status_mk_incident. cbn; tauto.
        -- eapply Forall_impl; [|exact F2]. intros rec (t & tm & ->).
           apply closed_status_mk_incident. cbn; tauto.
      * destruct H as (st & ind & desc & _ & _ & _ & ->).
        constructor; [|constructor].
        apply closed_status_mk_incident, indicator_status_closed.
    + destruct e; try discriminate. intros E; injection E as <-.
      constructor; [|constructor].
      apply closed_status_mk_incident. cbn; tauto.
  - intros recs. rewrite fetch_sefaz_status_eq.
    destruct (request_outcome w sefaz_api_url sefaz_headers) as [data|e].
    + destruct data; try discriminate. cbn [Py.items rbind]. intros H.
      pose proof (states_loop_inv _ _ _ H) as Hd.
      rewrite (states_loop_ok _ _ Hd) in H. injection H as <-.
      cbn [app]. apply Forall_forall. intros rec Hin.
      apply in_map_iff in Hin as (kv & <- & _).
      exists (region_status (snd kv)).
      split; [reflexivity | apply region_status_closed].
    + destruct e; try discriminate. intros E; injection E as <-.
      repeat constructor;
        (eexists; split; [reflexivity | cbn; tauto]).
Qed.

Lemma statuses_closed_witness :
  Forall (closed_status incident_statuses)
    [mk_incident (PStr "X down") "investigating" "02/01 03:04" false] /\
  Forall (closed_status region_statuses) SEFAZ_FALLBACK.
Proof.
  split.
  - apply (proj1 (statuses_closed (serving summary_major_outage))
             "https://status.anymarket.com.br"). reflexivity.
  - apply (proj2 (statuses_closed offline_world)). reflexivity.
Defined.

(** ** Kept incidents *)

(** C9: whenever the function returns on a parsed body, the records of the
    first loop all carry status "investigating"; they are followed by the
    records of the maintenance loop, and together they are the result
    unless both loops kept nothing. *)
Theorem kept_incidents_investigating :
  forall (base_url : string) (w : world) (data : pyval) (recs : list pyval),
    request_outcome w (summary_url base_url) [] = Ok data ->
    fst (fetch_status_page_data base_url w) = Ok recs ->
    exists incs maints,
      incidents_loop data [] = Ok incs /\
      maintenances_loop data incs = Ok (incs ++ maints) /\
      Forall (fun rec => status_of rec = Some "investigating") incs /\
      (incs ++ maints <> [] -> recs = incs ++ maints) /\
      (forall st,
          In st kept_incident_statuses ->
          STATUS_MAP_get (PStr st) "investigating" = Ok "investigating") /\
      (forall st,
          In st ["identified"; "monitoring"; "in_progress"] ->
          Py.assoc st STATUS_MAP = None).
Proof.
  intros base_url w data recs Hr. rewrite fetch_status_page_data_eq, Hr.
  intros H. apply summarize_inv in H
    as (incs & maints & H1 & H2 & F1 & _ & Hrecs).
  exists incs, maints. repeat split; try assumption.
  - eapply Forall_impl; [|exact F1]. intros rec (t & tm & ->). reflexivity.
  - intros Hne. destruct Hrecs as [[_ ->] | [E _]];
      [reflexivity | contradiction].
  - intros st Hin. apply kept_incident_status. cbn [Py.in_strs existsb].
    cbn in Hin. decompose [or] Hin; subst; try reflexivity. contradiction.
  - intros st Hin. cbn in Hin.
    decompose [or] Hin; subst; try reflexivity. contradiction.
Qed.

Lemma kept_incidents_investigating_witness :
  exists incs maints,
    incidents_loop summary_identified [] = Ok incs /\
    maintenances_loop summary_identified incs = Ok (incs ++ maints) /\
    Forall (fun rec => status_of rec = Some "investigating") incs /\
    incs = [mk_incident (PStr "API latency") "investigating"
              "02/01 03:04" true].
Proof.
  destruct (kept_incidents_investigating
              "https://status.pagar.me" (serving summary_identified)
              summary_identified
              [mk_incident (PStr "API latency") "investigating"
                 "02/01 03:04" true]
              eq_refl eq_refl)
    as (incs & maints & H1 & H2 & H3 & _).
  exists incs, maints. repeat split; try assumption.
  vm_compute in H1. injection H1 as <-. reflexivity.
Defined.

(** ** Timestamps *)

Lemma list_ascii_of_string_app (s t : string) :
  list_ascii_of_string (s ++ t)%string =
  list_ascii_of_string s ++ list_ascii_of_string t.
Proof. induction s as [|c s IH]; cbn; [reflexivity | now rewrite IH]. Qed.

Lemma split_chars_no_sep sep s :
  ~ In sep s -> Py.split_chars sep s = [s].
Proof.
  induction s as [|c s IH]; cbn [Py.split_chars]; [reflexivity|].
  intros H. destruct (Ascii.eqb_spec c sep) as [->|_].
  - exfalso. apply H. left. reflexivity.
  - rewrite IH; [reflexivity|]. intros Hin. apply H. right. exact Hin.
Qed.

Lemma split_chars_first sep s rest :
  ~ In sep s ->
  exists ps, Py.split_chars sep (s ++ sep :: rest) = s :: ps.
Proof.
  induction s as [|c s IH]; cbn [Py.split_chars app]; intros H.
  - rewrite Ascii.eqb_refl. eauto.
  - destruct (Ascii.eqb_spec c sep) as [->|_].
    + exfalso. apply H. left. reflexivity.
    + destruct IH as [ps ->]; [|eauto].
      intros Hin. apply H. right. exact Hin.
Qed.

(** A timestamp without a '.' goes to [strptime] whole. *)
Lemma format_time_whole (s : string) :
  ~ In "."%char (list_ascii_of_string s) ->
  format_time (PStr s) =
  (t <~ Strptime.strptime_iso s ;; Ok (Strptime.strftime_dm_HM t)).
Proof.
  intros H. unfold format_time. cbn [Py.split rbind].
  rewrite (split_chars_no_sep _ _ H). cbn [map Py.index0].
  rewrite string_of_list_ascii_of_string. reflexivity.
Qed.

(** Everything from the first '.' on is dropped before parsing. *)
Lemma format_time_truncates (s rest : string) :
  ~ In "."%char (list_ascii_of_string s) ->
  format_time (PStr (s ++ String "." rest)) = format_time (PStr s).
Proof.
  intros H. rewrite (format_time_whole s H).
  unfold format_time. cbn [Py.split rbind].
  rewrite list_ascii_of_string_app. cbn [list_ascii_of_string].
  destruct (split_chars_first "."%char _ (list_ascii_of_string rest) H)
    as [ps ->].
  cbn [map Py.index0]. rewrite string_of_list_ascii_of_string. reflexivity.
Qed.

Lemma for_append_In body xs :
  forall acc res x rec,
    for_append body xs acc = Ok res ->
    In x xs -> body x = Ok (Some rec) -> In rec res.
Proof.
  induction xs as [|y xs IH]; intros acc res x rec; cbn [for_append In];
    [contradiction|].
  unfold rbind. destruct (body y) as [r|] eqn:Hy; [|discriminate].
  intros H [->|Hin] Hx.
  - rewrite Hx in Hy. injection Hy as <-.
    apply (for_append_inv (fun _ => True)) in H as (l & -> & _); [|auto].
    apply in_or_app. left. apply in_or_app. right. left. reflexivity.
  - exact (IH _ _ _ _ H Hin Hx).
Qed.

(** C6: an incident of the incident list with a kept lifecycle status and
    created_at "2024-01-02T03:04:05.000Z" is in the returned list with its
    name as title, status "investigating", time "02/01 03:04" and
    new = true. *)
Theorem kept_incident_time :
  forall (base_url : string) (w : world) (data : pyval) (xs : list pyval)
         (inc st name : pyval) (recs : list pyval),
    request_outcome w (summary_url base_url) [] = Ok data ->
    Py.getitem data "incidents" = Ok (PList xs) ->
    In inc xs ->
    Py.getitem inc "status" = Ok st ->
    Py.in_strs st kept_incident_statuses = true ->
    Py.getitem inc "name" = Ok name ->
    Py.getitem inc "created_at" = Ok (PStr "2024-01-02T03:04:05.000Z") ->
    fst (fetch_status_page_data base_url w) = Ok recs ->
    In (PDict [("title", name);
               ("status", PStr "investigating");
               ("time", PStr "02/01 03:04");
               ("new", PBool true)]) recs.
Proof.
  intros base_url w data xs inc st name recs Hr Hx Hin Hst Hk Hn Hc.
  rewrite fetch_status_page_data_eq, Hr. intros H.
  assert (Hb : incident_body inc =
               Ok (Some (mk_incident name "investigating"
                           "02/01 03:04" true))).
  { unfold incident_body, rbind. rewrite Hst.
    unfold kept_incident_statuses in Hk. rewrite Hk, Hn.
    rewrite (kept_incident_status _ Hk), Hc. reflexivity. }
  apply summarize_inv in H as (incs & maints & H1 & _ & _ & _ & Hrecs).
  assert (Hi : In (mk_incident name "investigating" "02/01 03:04" true) incs).
  { unfold incidents_loop, rbind in H1.
    destruct data; try discriminate Hx. cbn [Py.getitem Py.get] in *.
    destruct (Py.assoc "incidents" d); [|discriminate Hx].
    injection Hx as ->. cbn [Py.iter] in H1.
    exact (for_append_In _ _ _ _ _ _ H1 Hin Hb). }
  destruct Hrecs as [[_ ->] | [E _]].
  - apply in_or_app. left. exact Hi.
  - destruct incs; [contradiction | discriminate E].
Qed.

Lemma kept_incident_time_witness :
  format_time (PStr "2024-01-02T03:04:05.000Z") = Ok "02/01 03:04" /\
  fst (fetch_status_page_data "https://status.pagar.me"
         (serving summary_identified)) =
  Ok [mk_incident (PStr "API latency") "investigating" "02/01 03:04" true] /\
  In (PDict [("title", PStr "API latency");
             ("status", PStr "investigating");
             ("time", PStr "02/01 03:04");
             ("new", PBool true)])
     [mk_incident (PStr "API latency") "investigating" "02/01 03:04" true].
Proof.
  split; [reflexivity|]. split; [reflexivity|].
  apply (kept_incident_time "https://status.pagar.me"
           (serving summary_identified) summary_identified
           [sample_incident "2024-01-02T03:04:05.000Z"]
           (sample_incident "2024-01-02T03:04:05.000Z")
           (PStr "identified") (PStr "API latency"));
    try reflexivity.
  left. reflexivity.
Defined.

(** ** Timestamps without fractional seconds *)

(** C10: a well-formed summary whose kept incident (or kept maintenance)
    has the timestamp "2024-01-02T03:04:05Z", without a '.', makes the
    parse fail: the function raises ValueError, which the except clause for
    request errors does not catch. *)
Theorem timestamp_without_fraction_escapes :
  forall (base_url : string) (w : world) (data : pyval),
    In data [summary_incident_no_fraction; summary_maintenance_no_fraction] ->
    request_outcome w (summary_url base_url) [] = Ok data ->
    fst (fetch_status_page_data base_url w) = Raise ValueError /\
    network_class ValueError = false /\
    format_time (PStr "2024-01-02T03:04:05Z") = Raise ValueError /\
    ~ In "."%char (list_ascii_of_string "2024-01-02T03:04:05Z").
Proof.
  intros base_url w data Hin Hr.
  rewrite fetch_status_page_data_eq, Hr.
  repeat split.
  - destruct Hin as [<-|[<-|[]]]; vm_compute; reflexivity.
  - cbn. intros H. decompose [or] H; try discriminate; assumption.
Qed.

Lemma timestamp_without_fraction_escapes_witness :
  fst (fetch_status_page_data "https://status.anymarket.com.br"
         (serving summary_incident_no_fraction)) = Raise ValueError /\
  fst (fetch_status_page_data "https://status.anymarket.com.br"
         (serving summary_maintenance_no_fraction)) = Raise ValueError.
Proof.
  split.
  - apply (timestamp_without_fraction_escapes
             "https://status.anymarket.com.br"
             (serving summary_incident_no_fraction)
             summary_incident_no_fraction);
      [left; reflexivity | reflexivity].
  - apply (timestamp_without_fraction_escapes
             "https://status.anymarket.com.br"
             (serving summary_maintenance_no_fraction)
             summary_maintenance_no_fraction);
      [right; left; reflexivity | reflexivity].
Defined.

(** ** The snapshot *)

Lemma assoc_setitem {V} (k : string) (v : V) (d : list (string * V)) :
  Py.assoc k (Py.setitem k v d) = Some v.
Proof.
  induction d as [|[k' v'] d IH]; cbn [Py.setitem Py.assoc].
  - rewrite String.eqb_refl. reflexivity.
  - destruct (String.eqb k k') eqn:E; cbn [Py.assoc]; rewrite E;
      [reflexivity | exact IH].
Qed.

(** A provider fetch reads the clock and writes to standard output, nothing
    else. *)
Lemma after_fetch_frame base_url w :
  net (after_fetch base_url w) = net w /\
  clock (after_fetch base_url w) = clock w /\
  can_open (after_fetch base_url w) = can_open w /\
  files (after_fetch base_url w) = files w.
Proof.
  unfold after_fetch. run.
  repeat (destr; cbn [fst snd net clock can_open files] in *;
          try (repeat split; reflexivity)).
Qed.

Lemma fetch_sefaz_status_frame w :
  can_open (snd (fetch_sefaz_status w)) = can_open w /\
  files (snd (fetch_sefaz_status w)) = files w.
Proof.
  run.
  repeat (destr; cbn [fst snd net clock can_open files] in *;
          try (repeat split; reflexivity)).
Qed.

Lemma surjective_run {A} (c : M A) (w : world) : c w = (fst (c w), snd (c w)).
Proof. destruct (c w); reflexivity. Qed.

Lemma after_fetch_can_write base_url w :
  can_write (after_fetch base_url w) = can_write w.
Proof.
  unfold after_fetch. run.
  repeat (destr; cbn [fst snd can_write] in *; try reflexivity).
Qed.

Lemma fetch_sefaz_status_can_write w :
  can_write (snd (fetch_sefaz_status w)) = can_write w.
Proof.
  run. repeat (destr; cbn [fst snd can_write] in *; try reflexivity).
Qed.

(** [main], stage by stage. *)
Lemma main_eq (w : world) :
  main w =
  match fst (fetch_status_page_data url_AnyMarket w) with
  | Raise e => (Raise e, after_fetch url_AnyMarket w)
  | Ok r1 =>
    match fst (fetch_status_page_data url_PagSeguro
                 (after_fetch url_AnyMarket w)) with
    | Raise e => (Raise e, after_fetch url_PagSeguro
                             (after_fetch url_AnyMarket w))
    | Ok r2 =>
      match fst (fetch_status_page_data url_Pagarme
                   (after_fetch url_PagSeguro
                      (after_fetch url_AnyMarket w))) with
      | Raise e => (Raise e, after_providers w)
      | Ok r3 =>
        match fst (fetch_sefaz_status (after_providers w)) with
        | Raise e => (Raise e, after_fetches w)
        | Ok states =>
            if can_open (after_fetches w) output_path
            then
              if can_write (after_fetches w) output_path
              then
                if encodable (snapshot r1 r2 r3 states)
                then (Ok tt,
                      written (snapshot r1 r2 r3 states) (after_fetches w))
                else (Raise UnicodeEncodeError,
                      with_file output_path
                        (Partial (snapshot r1 r2 r3 states)) (after_fetches w))
              else (Raise OSError,
                    with_file output_path
                      (Partial (snapshot r1 r2 r3 states)) (after_fetches w))
            else (Raise OSError, after_fetches w)
        end
      end
    end
  end.
Proof.
  unfold after_fetches, after_providers, after_fetch, main, STATUS_PAGES,
    written.
  cbn [providers_loop]. unfold bind, ret, dump_to_file, print.
  fold url_AnyMarket url_PagSeguro url_Pagarme.
  rewrite (surjective_run (fetch_status_page_data url_AnyMarket) w).
  destruct (fst (fetch_status_page_data url_AnyMarket w)); [|reflexivity].
  rewrite (surjective_run (fetch_status_page_data url_PagSeguro) _).
  destruct (fst (fetch_status_page_data url_PagSeguro _)); [|reflexivity].
  rewrite (surjective_run (fetch_status_page_data url_Pagarme) _).
  destruct (fst (fetch_status_page_data url_Pagarme _)); [|reflexivity].
  cbn [Py.setitem String.eqb Ascii.eqb Bool.eqb].
  rewrite (surjective_run fetch_sefaz_status _).
  destruct (fst (fetch_sefaz_status _)); [|reflexivity].
  cbn [fst snd]. unfold snapshot, with_file.
  destruct (can_open _ output_path); [|reflexivity].
  destruct (can_write _ output_path); [|reflexivity].
  destruct (encodable _); reflexivity.
Qed.

Lemma after_providers_frame w :
  can_open (after_providers w) = can_open w /\
  files (after_providers w) = files w.
Proof.
  unfold after_providers.
  destruct (after_fetch_frame url_Pagarme
              (after_fetch url_PagSeguro (after_fetch url_AnyMarket w)))
    as (_ & _ & -> & ->).
  destruct (after_fetch_frame url_PagSeguro (after_fetch url_AnyMarket w))
    as (_ & _ & -> & ->).
  destruct (after_fetch_frame url_AnyMarket w) as (_ & _ & -> & ->).
  split; reflexivity.
Qed.

Lemma after_fetches_frame w :
  can_open (after_fetches w) = can_open w /\
  files (after_fetches w) = files w.
Proof.
  unfold after_fetches.
  destruct (fetch_sefaz_status_frame (after_providers w)) as [-> ->].
  apply after_providers_frame.
Qed.

Lemma after_fetches_can_write w :
  can_write (after_fetches w) = can_write w.
Proof.
  unfold after_fetches, after_providers.
  rewrite fetch_sefaz_status_can_write, !after_fetch_can_write. reflexivity.
Qed.

(** [main] completes only when every fetch returned. *)
Lemma main_returns_inv w :
  fst (main w) = Ok tt ->
  exists r1 r2 r3 states,
    fst (fetch_status_page_data url_AnyMarket w) = Ok r1 /\
    fst (fetch_status_page_data url_PagSeguro (after_fetch url_AnyMarket w))
    = Ok r2 /\
    fst (fetch_status_page_data url_Pagarme
           (after_fetch url_PagSeguro (after_fetch url_AnyMarket w)))
    = Ok r3 /\
    fst (fetch_sefaz_status (after_providers w)) = Ok states.
Proof.
  rewrite main_eq.
  destruct (fst (fetch_status_page_data url_AnyMarket w)) as [r1|];
    [|discriminate].
  destruct (fst (fetch_status_page_data url_PagSeguro _)) as [r2|];
    [|discriminate].
  destruct (fst (fetch_status_page_data url_Pagarme _)) as [r3|];
    [|discriminate].
  destruct (fst (fetch_sefaz_status _)) as [states|]; [|discriminate].
  intros _. exists r1, r2, r3, states. repeat split.
Qed.

Lemma request_outcome_net w w' url headers :
  net w' = net w ->
  request_outcome w' url headers = request_outcome w url headers.
Proof. intros E. unfold request_outcome. rewrite E. reflexivity. Qed.

Lemma provider_answers_outcome w base_url :
  provider_answers w base_url <->
  match request_outcome w (summary_url base_url) [] with
  | Ok data => summary_ok data = true
  | Raise e => network_class e = true
  end.
Proof.
  unfold provider_answers. split.
  - intros [(k & msg & H) | (data & -> & H)]; [|exact H].
    apply fetch_fails_outcome in H. rewrite H. reflexivity.
  - destruct (request_outcome w (summary_url base_url) []) as [data|e] eqn:E.
    + intros H. right. eauto.
    + destruct e; try discriminate. intros _. left. exists k, msg.
      apply fetch_fails_outcome. exact E.
Qed.

Lemma provider_answers_returns w base_url :
  provider_answers w base_url ->
  exists rec recs, fst (fetch_status_page_data base_url w) = Ok (rec :: recs).
Proof.
  intros H. apply provider_answers_outcome in H.
  rewrite fetch_status_page_data_eq.
  destruct (request_outcome w (summary_url base_url) []) as [data|e].
  - apply summarize_total, H.
  - destruct e; try discriminate H. eauto.
Qed.

Lemma provider_answers_net w w' base_url :
  net w' = net w -> provider_answers w base_url -> provider_answers w' base_url.
Proof.
  intros E H. apply provider_answers_outcome.
  apply provider_answers_outcome in H.
  rewrite (request_outcome_net _ _ _ _ E). exact H.
Qed.

Lemma sefaz_answers_returns w w' :
  net w' = net w -> sefaz_answers w ->
  exists states, fst (fetch_sefaz_status w') = Ok states.
Proof.
  intros E H. rewrite fetch_sefaz_status_eq, (request_outcome_net _ _ _ _ E).
  destruct H as [(k & msg & H) | (its & -> & H)].
  - apply fetch_fails_outcome in H. rewrite H. eauto.
  - cbn [Py.items rbind]. rewrite (states_loop_ok _ _ H). eauto.
Qed.

(** C8: whatever each fetch meets (a failure inside [requests] or a body
    of the expected shape), once the output file is open the document
    [main] hands to [json.dump] has exactly the keys REAL_DATA and
    STATES_DATA: REAL_DATA maps every configured provider name, in order,
    to the non-empty list its fetch returned, and STATES_DATA is the list
    of the regional fetch.  [main] completes, with the whole document in
    the file, when the disk takes the text and every string of the
    document can be encoded; otherwise it raises and the file is left with
    a beginning of that document. *)
Theorem main_snapshot :
  forall (w : world),
    (forall name url, In (name, url) STATUS_PAGES -> provider_answers w url) ->
    sefaz_answers w ->
    can_open w output_path = true ->
    exists doc r1 r2 r3 states content,
      Py.assoc output_path (files (snd (main w))) = Some content /\
      document_of content = doc /\
      keys doc = ["REAL_DATA"; "STATES_DATA"] /\
      Py.getitem doc "REAL_DATA" =
      Ok (PDict [("AnyMarket", PList r1); ("PagSeguro", PList r2);
                 ("Pagar.me", PList r3)]) /\
      map fst STATUS_PAGES = ["AnyMarket"; "PagSeguro"; "Pagar.me"] /\
      Py.getitem doc "STATES_DATA" = Ok (PList states) /\
      fst (fetch_status_page_data url_AnyMarket w) = Ok r1 /\
      fst (fetch_status_page_data url_PagSeguro (after_fetch url_AnyMarket w))
      = Ok r2 /\
      fst (fetch_status_page_data url_Pagarme
             (after_fetch url_PagSeguro (after_fetch url_AnyMarket w)))
      = Ok r3 /\
      fst (fetch_sefaz_status (after_providers w)) = Ok states /\
      r1 <> [] /\ r2 <> [] /\ r3 <> [] /\
      (can_write w output_path = true -> encodable doc = true ->
       fst (main w) = Ok tt /\ content = Dumped doc) /\
      (can_write w output_path = false \/ encodable doc = false ->
       (fst (main w) = Raise OSError \/
        fst (main w) = Raise UnicodeEncodeError) /\
       content = Partial doc).
Proof.
  intros w Hp Hs Ho.
  pose proof (after_fetch_frame url_AnyMarket w) as (N1 & _).
  pose proof (after_fetch_frame url_PagSeguro (after_fetch url_AnyMarket w))
    as (N2 & _).
  pose proof (after_fetch_frame url_Pagarme
                (after_fetch url_PagSeguro (after_fetch url_AnyMarket w)))
    as (N3 & _).
  rewrite N1 in N2. rewrite N2 in N3.
  destruct (provider_answers_returns w url_AnyMarket) as (a1 & l1 & H1).
  { apply (Hp "AnyMarket"). cbn; tauto. }
  destruct (provider_answers_returns (after_fetch url_AnyMarket w)
              url_PagSeguro) as (a2 & l2 & H2).
  { apply (provider_answers_net w _ _ N1), (Hp "PagSeguro"). cbn; tauto. }
  destruct (provider_answers_returns
              (after_fetch url_PagSeguro (after_fetch url_AnyMarket w))
              url_Pagarme) as (a3 & l3 & H3).
  { apply (provider_answers_net w _ _ N2), (Hp "Pagar.me"). cbn; tauto. }
  destruct (sefaz_answers_returns w (after_providers w) N3 Hs)
    as (states & H4).
  exists (snapshot (a1 :: l1) (a2 :: l2) (a3 :: l3) states),
    (a1 :: l1), (a2 :: l2), (a3 :: l3), states.
  rewrite main_eq, H1, H2, H3, H4.
  rewrite (proj1 (after_fetches_frame w)), Ho, after_fetches_can_write.
  destruct (can_write w output_path) eqn:Hw;
    [destruct (encodable (snapshot (a1 :: l1) (a2 :: l2) (a3 :: l3) states))
       eqn:He|];
    eexists; cbn [fst snd written with_file files];
    (split; [apply assoc_setitem|]);
    repeat split; try reflexivity; try discriminate; try tauto;
    intros; try discriminate; intuition discriminate.
Qed.

Lemma main_snapshot_witness :
  fst (main offline_world) = Ok tt /\
  Py.assoc output_path (files (snd (main offline_world))) =
  Some (Dumped
          (PDict [("REAL_DATA",
                   PDict [("AnyMarket", PList [degraded_incident sample_now]);
                          ("PagSeguro", PList [degraded_incident sample_now]);
                          ("Pagar.me", PList [degraded_incident sample_now])]);
                  ("STATES_DATA", PList SEFAZ_FALLBACK)])) /\
  (exists content,
      Py.assoc output_path (files (snd (main offline_world))) = Some content /\
      keys (document_of content) = ["REAL_DATA"; "STATES_DATA"]) /\
  fst (main tainted_world) = Raise UnicodeEncodeError /\
  (exists content,
      Py.assoc output_path (files (snd (main tainted_world))) = Some content /\
      keys (document_of content) = ["REAL_DATA"; "STATES_DATA"]).
Proof.
  split; [reflexivity|]. split; [reflexivity|]. split; [|split].
  - destruct (main_snapshot offline_world)
      as (doc & _ & _ & _ & _ & content & H & D & K & _).
    + intros name url _. left. exists Timeout, "timed out".
      apply get_raises. reflexivity.
    + left. exists Timeout, "timed out". apply get_raises. reflexivity.
    + reflexivity.
    + exists content. rewrite D. split; [exact H | exact K].
  - reflexivity.
  - destruct (main_snapshot tainted_world)
      as (doc & _ & _ & _ & _ & content & H & D & K & _).
    + intros name url Hin. right. exists summary_surrogate.
      cbn in Hin. decompose [or] Hin; try contradiction;
        match goal with E : (_, _) = (_, _) |- _ => injection E as <- <- end;
        split; reflexivity.
    + right. eexists. split; reflexivity.
    + reflexivity.
    + exists content. rewrite D. split; [exact H | exact K].
Defined.

(** ** What a provider fetch does to the world *)

Lemma fetch_status_page_data_snd (base_url : string) (w : world) :
  snd (fetch_status_page_data base_url w) =
  match request_outcome w (summary_url base_url) [] with
  | Ok data =>
      match summarize data (now_of w) with
      | Ok _ => match collect data with Ok [] => ticked w | _ => w end
      | Raise _ => w
      end
  | Raise (RequestException _ msg) =>
      ticked (printed (fetch_error_line base_url msg) w)
  | Raise _ => w
  end.
Proof.
  unfold summarize, ticked, printed, fetch_error_line. run.
  repeat (destr; cbn [fst snd] in *; try reflexivity; try discriminate;
          try absurd_network).
Qed.

(** X1: a fetch that fails inside [requests] prints exactly one line, the
    message with the base URL and the text of the error (for an error
    status the text [raise_for_status] builds from the code, the reason
    and the URL of the response), reads the clock once and touches nothing
    else. *)
Theorem fetch_status_page_data_failure_effects :
  forall (base_url : string) (w : world) (k : request_kind) (msg : string),
    fetch_fails w (summary_url base_url) [] k msg ->
    snd (fetch_status_page_data base_url w) =
    mkWorld (net w) (clock w) (S (ticks w)) (can_open w) (can_write w)
      (stdout w ++ [("Erro ao buscar dados de " ++ base_url ++ ": " ++ msg)%string])
      (files w).
Proof.
  intros base_url w k msg H. apply fetch_fails_outcome in H.
  rewrite fetch_status_page_data_snd, H. reflexivity.
Qed.

Lemma fetch_status_page_data_failure_effects_witness :
  stdout (snd (fetch_status_page_data url_Pagarme offline_world)) =
  ["Erro ao buscar dados de https://status.pagar.me: timed out"] /\
  ticks (snd (fetch_status_page_data url_Pagarme offline_world)) = 1 /\
  stdout (snd (fetch_status_page_data url_Pagarme unavailable_world)) =
  ["Erro ao buscar dados de https://status.pagar.me: 503 Server Error: Service Unavailable for url: https://status.pagar.me/api/v2/summary.json"].
Proof.
  rewrite (fetch_status_page_data_failure_effects url_Pagarme offline_world
             Timeout "timed out"
             (get_raises offline_world (summary_url url_Pagarme) []
                Timeout "timed out" eq_refl)).
  split; [reflexivity|]. split; [reflexivity|].
  rewrite (fetch_status_page_data_failure_effects url_Pagarme
             unavailable_world (HTTPError 503)
             "503 Server Error: Service Unavailable for url: https://status.pagar.me/api/v2/summary.json").
  - reflexivity.
  - refine (status_raises unavailable_world (summary_url url_Pagarme) []
              (mkResponse 503 "Service Unavailable"
                 (summary_url url_Pagarme) (Ok PNone))
              eq_refl _).
    cbn; lia.
Defined.

(** X2: an exception that leaves [fetch_status_page_data] leaves the world
    as it was: nothing is printed and the clock is not read. *)
Theorem fetch_status_page_data_raise_no_effect :
  forall (base_url : string) (w : world) (e : exn),
    fst (fetch_status_page_data base_url w) = Raise e ->
    snd (fetch_status_page_data base_url w) = w.
Proof.
  intros base_url w e.
  rewrite fetch_status_page_data_eq, fetch_status_page_data_snd.
  destruct (request_outcome w (summary_url base_url) []) as [data|e'].
  - intros ->. reflexivity.
  - destruct e'; try reflexivity. discriminate.
Qed.

Lemma fetch_status_page_data_raise_no_effect_witness :
  fst (fetch_status_page_data url_AnyMarket
         (serving summary_incident_no_fraction)) = Raise ValueError /\
  snd (fetch_status_page_data url_AnyMarket
         (serving summary_incident_no_fraction)) =
  serving summary_incident_no_fraction.
Proof.
  split; [reflexivity|].
  exact (fetch_status_page_data_raise_no_effect url_AnyMarket
           (serving summary_incident_no_fraction) ValueError eq_refl).
Defined.

(** X3: on a body that parsed, a fetch that returns prints nothing; it
    reads the clock once when both loops kept nothing and not at all when a
    record was kept. *)
Theorem fetch_status_page_data_success_effects :
  forall (base_url : string) (w : world) (data : pyval) (recs : list pyval),
    request_outcome w (summary_url base_url) [] = Ok data ->
    fst (fetch_status_page_data base_url w) = Ok recs ->
    stdout (snd (fetch_status_page_data base_url w)) = stdout w /\
    (collect data = Ok [] ->
     ticks (snd (fetch_status_page_data base_url w)) = S (ticks w)) /\
    (collect data <> Ok [] ->
     snd (fetch_status_page_data base_url w) = w).
Proof.
  intros base_url w data recs Hr.
  rewrite fetch_status_page_data_eq, fetch_status_page_data_snd, Hr.
  intros ->. destruct (collect data) as [[|r rs]|e]; repeat split;
    try reflexivity; intros H; try discriminate H; contradiction.
Qed.

Lemma fetch_status_page_data_success_effects_witness :
  ticks (snd (fetch_status_page_data url_AnyMarket
                (serving summary_major_outage))) = 1 /\
  snd (fetch_status_page_data url_AnyMarket (serving summary_identified)) =
  serving summary_identified.
Proof.
  split.
  - apply (fetch_status_page_data_success_effects url_AnyMarket
             (serving summary_major_outage) summary_major_outage
             [mk_incident (PStr "X down") "investigating" "02/01 03:04" false]
             eq_refl eq_refl).
    reflexivity.
  - apply (fetch_status_page_data_success_effects url_AnyMarket
             (serving summary_identified) summary_identified
             [mk_incident (PStr "API latency") "investigating"
                "02/01 03:04" true]
             eq_refl eq_refl).
    discriminate.
Defined.

(** X4: an exception of [requests.get] or of the body decoder that is not a
    [RequestException] is not caught: it leaves the function as it is. *)
Theorem fetch_status_page_data_foreign_exception :
  forall (base_url : string) (w : world) (e : exn),
    request_outcome w (summary_url base_url) [] = Raise e ->
    network_class e = false ->
    fst (fetch_status_page_data base_url w) = Raise e.
Proof.
  intros base_url w e Hr Hn. rewrite fetch_status_page_data_eq, Hr.
  destruct e; try reflexivity. discriminate Hn.
Qed.

Lemma fetch_status_page_data_foreign_exception_witness :
  fst (fetch_status_page_data url_PagSeguro garbled_world) = Raise ValueError.
Proof.
  exact (fetch_status_page_data_foreign_exception url_PagSeguro garbled_world
           ValueError eq_refl eq_refl).
Defined.

(** ** The prologue of the summary *)

(** X5: the overall status is computed before the loops, so a body that is
    not an object, has no status, has a status that is not an object or has
    no indicator, or has a list or an object as indicator makes the
    function raise, whatever incidents the body lists. *)
Theorem fetch_status_page_data_prologue_errors :
  forall (base_url : string) (w : world) (data : pyval),
    request_outcome w (summary_url base_url) [] = Ok data ->
    (is_dict data = false ->
     fst (fetch_status_page_data base_url w) = Raise TypeError) /\
    (forall d,
        data = PDict d -> Py.assoc "status" d = None ->
        fst (fetch_status_page_data base_url w) = Raise (KeyError "status")) /\
    (forall d st,
        data = PDict d -> Py.assoc "status" d = Some st ->
        is_dict st = false ->
        fst (fetch_status_page_data base_url w) = Raise TypeError) /\
    (forall d st,
        data = PDict d -> Py.assoc "status" d = Some (PDict st) ->
        Py.assoc "indicator" st = None ->
        fst (fetch_status_page_data base_url w) =
        Raise (KeyError "indicator")) /\
    (forall d st ind,
        data = PDict d -> Py.assoc "status" d = Some (PDict st) ->
        Py.assoc "indicator" st = Some ind ->
        hashable ind = false ->
        fst (fetch_status_page_data base_url w) = Raise TypeError).
Proof.
  intros base_url w data Hr. rewrite fetch_status_page_data_eq, Hr.
  unfold summarize, rbind. repeat split.
  - destruct data; try reflexivity. discriminate.
  - intros d -> H. cbn [Py.getitem]. rewrite H. reflexivity.
  - intros d st -> H Hd. cbn [Py.getitem]. rewrite H.
    destruct st; try reflexivity. discriminate Hd.
  - intros d st -> H Hi. cbn [Py.getitem]. rewrite H.
    cbn [Py.getitem]. rewrite Hi. reflexivity.
  - intros d st ind -> H Hi Hh. cbn [Py.getitem]. rewrite H.
    cbn [Py.getitem]. rewrite Hi.
    destruct ind; try discriminate Hh; reflexivity.
Qed.

Lemma fetch_status_page_data_prologue_errors_witness :
  fst (fetch_status_page_data url_AnyMarket
         (serving (PDict [("incidents",
                           PList [sample_incident "2024-01-02T03:04:05.000Z"])])))
  = Raise (KeyError "status") /\
  fst (fetch_status_page_data url_AnyMarket (serving (PList [])))
  = Raise TypeError.
Proof.
  split.
  - apply (proj1 (proj2 (fetch_status_page_data_prologue_errors url_AnyMarket
                           (serving _) _ eq_refl)) _ eq_refl).
    reflexivity.
  - apply (proj1 (fetch_status_page_data_prologue_errors url_AnyMarket
                    (serving (PList [])) (PList []) eq_refl)).
    reflexivity.
Defined.

(** ** Entries the loops pass over *)

Lemma incident_body_unkept x :
  unkept ["investigating"; "identified"; "monitoring"; "in_progress"] x = true ->
  incident_body x = Ok None.
Proof.
  destruct x; try discriminate. unfold unkept, incident_body, rbind.
  cbn [Py.getitem]. destruct (Py.assoc "status" d) as [st|]; [|discriminate].
  destruct (Py.in_strs st _); [discriminate | reflexivity].
Qed.

Lemma maintenance_body_unkept x :
  unkept ["scheduled"; "in_progress"] x = true ->
  maintenance_body x = Ok None.
Proof.
  destruct x; try discriminate. unfold unkept, maintenance_body, rbind.
  cbn [Py.getitem]. destruct (Py.assoc "status" d) as [st|]; [|discriminate].
  destruct (Py.in_strs st _); [discriminate | reflexivity].
Qed.

Lemma for_append_skips (ok : pyval -> bool) body :
  (forall x, ok x = true -> body x = Ok None) ->
  forall xs acc, forallb ok xs = true -> for_append body xs acc = Ok acc.
Proof.
  intros Hb xs; induction xs as [|x xs IH]; intros acc; cbn; [reflexivity|].
  intros H. apply andb_true_iff in H as [Hx Hxs].
  rewrite (Hb _ Hx). cbn. apply IH, Hxs.
Qed.

(** X6: elements whose lifecycle status is outside the kept lists need
    nothing but their status; when the two lists (an absent key counts as
    the empty list) hold only such elements the function returns the one
    record for the overall status. *)
Theorem fetch_status_page_data_nothing_kept :
  forall (base_url : string) (w : world) (data status ind desc : pyval)
         (xs ys : list pyval),
    request_outcome w (summary_url base_url) [] = Ok data ->
    Py.getitem data "status" = Ok status ->
    Py.getitem status "indicator" = Ok ind ->
    Py.getitem status "description" = Ok desc ->
    hashable ind = true ->
    Py.get data "incidents" (PList []) = Ok (PList xs) ->
    Py.get data "scheduled_maintenances" (PList []) = Ok (PList ys) ->
    forallb (unkept ["investigating"; "identified"; "monitoring"; "in_progress"])
      xs = true ->
    forallb (unkept ["scheduled"; "in_progress"]) ys = true ->
    fst (fetch_status_page_data base_url w) =
    Ok [PDict [("title", desc);
               ("status", PStr (indicator_status ind));
               ("time", PStr (Strptime.strftime_dm_HM (now_of w)));
               ("new", PBool false)]].
Proof.
  intros base_url w data status ind desc xs ys Hr Hs Hi Hd Hh Hx Hy Fx Fy.
  rewrite fetch_status_page_data_eq, Hr.
  apply (summarize_synthetic _ _ _ _ _ Hs Hi Hd Hh).
  unfold collect, incidents_loop, maintenances_loop, rbind.
  rewrite Hx, Hy. cbn [Py.iter].
  rewrite (for_append_skips _ _ incident_body_unkept _ _ Fx).
  exact (for_append_skips _ _ maintenance_body_unkept _ _ Fy).
Qed.

Lemma fetch_status_page_data_nothing_kept_witness :
  fst (fetch_status_page_data url_AnyMarket (serving bare_summary)) =
  Ok [mk_incident (PStr "All Systems Operational") "operational"
        "02/01 03:04" false] /\
  fst (fetch_status_page_data url_AnyMarket (serving summary_resolved_only)) =
  Ok [mk_incident (PStr "All Systems Operational") "operational"
        "02/01 03:04" false].
Proof.
  split.
  - apply (fetch_status_page_data_nothing_kept url_AnyMarket
             (serving bare_summary) bare_summary
             (PDict [("indicator", PStr "none");
                     ("description", PStr "All Systems Operational")])
             (PStr "none") (PStr "All Systems Operational") [] []);
      reflexivity.
  - apply (fetch_status_page_data_nothing_kept url_AnyMarket
             (serving summary_resolved_only) summary_resolved_only
             (PDict [("indicator", PStr "none");
                     ("description", PStr "All Systems Operational")])
             (PStr "none") (PStr "All Systems Operational")
             [resolved_incident] []);
      reflexivity.
Defined.

(** ** No partial lists *)

Lemma for_append_abort body pre bad post e :
  Forall (fun x => exists r, body x = Ok r) pre ->
  body bad = Raise e ->
  forall acc, for_append body (pre ++ bad :: post) acc = Raise e.
Proof.
  intros Hpre Hbad. induction Hpre as [|x pre [r Hx] _ IH]; intros acc;
    cbn [app for_append]; unfold rbind.
  - rewrite Hbad. reflexivity.
  - rewrite Hx. apply IH.
Qed.

Lemma entry_ok_incidents pre :
  forallb (entry_ok ["investigating"; "identified"; "monitoring"; "in_progress"]
             "created_at") pre = true ->
  Forall (fun x => exists r, incident_body x = Ok r) pre.
Proof.
  intros H. apply Forall_forall. intros x Hin.
  apply incident_body_total. rewrite forallb_forall in H. exact (H x Hin).
Qed.

Lemma entry_ok_maintenances pre :
  forallb (entry_ok ["scheduled"; "in_progress"] "scheduled_for") pre = true ->
  Forall (fun x => exists r, maintenance_body x = Ok r) pre.
Proof.
  intros H. apply Forall_forall. intros x Hin.
  apply maintenance_body_total. rewrite forallb_forall in H. exact (H x Hin).
Qed.

Lemma summarize_prologue data status ind now :
  Py.getitem data "status" = Ok status ->
  Py.getitem status "indicator" = Ok ind ->
  hashable ind = true ->
  summarize data now =
  (incidents <~ collect data ;;
   match incidents with
   | [] =>
       description <~ Py.getitem status "description" ;;
       Ok [mk_incident description (indicator_status ind)
             (Strptime.strftime_dm_HM now) false]
   | _ => Ok incidents
   end).
Proof.
  intros Hs Hi Hh. unfold summarize, rbind. rewrite Hs, Hi.
  unfold STATUS_MAP_get, indicator_status.
  destruct ind; try discriminate Hh; try reflexivity.
  destruct (Py.assoc s STATUS_MAP); reflexivity.
Qed.

Lemma raise_escapes base_url w data e :
  request_outcome w (summary_url base_url) [] = Ok data ->
  summarize data (now_of w) = Raise e ->
  fst (fetch_status_page_data base_url w) = Raise e.
Proof.
  intros Hr Hs. rewrite fetch_status_page_data_eq, Hr. exact Hs.
Qed.

(** X7: the incident loop stops at the first element its body fails on:
    the function raises that exception and returns none of the incidents
    kept before it. *)
Theorem fetch_status_page_data_incident_aborts :
  forall (base_url : string) (w : world) (data status ind : pyval)
         (pre post : list pyval) (bad : pyval) (e : exn),
    request_outcome w (summary_url base_url) [] = Ok data ->
    Py.getitem data "status" = Ok status ->
    Py.getitem status "indicator" = Ok ind ->
    hashable ind = true ->
    Py.get data "incidents" (PList []) = Ok (PList (pre ++ bad :: post)) ->
    forallb (entry_ok ["investigating"; "identified"; "monitoring"; "in_progress"]
               "created_at") pre = true ->
    incident_body bad = Raise e ->
    fst (fetch_status_page_data base_url w) = Raise e.
Proof.
  intros base_url w data status ind pre post bad e Hr Hs Hi Hh Hx Hpre Hbad.
  apply (raise_escapes _ _ _ _ Hr).
  rewrite (summarize_prologue _ _ _ _ Hs Hi Hh).
  unfold collect, incidents_loop, rbind. rewrite Hx. cbn [Py.iter].
  rewrite (for_append_abort _ _ _ _ _ (entry_ok_incidents _ Hpre) Hbad).
  reflexivity.
Qed.

Lemma fetch_status_page_data_incident_aborts_witness :
  fst (fetch_status_page_data url_Pagarme
         (serving (summary_with [sample_incident "2024-01-02T03:04:05.000Z";
                                 statusless_incident] []))) =
  Raise (KeyError "status").
Proof.
  apply (fetch_status_page_data_incident_aborts url_Pagarme (serving _)
           (summary_with [sample_incident "2024-01-02T03:04:05.000Z";
                          statusless_incident] [])
           (PDict [("indicator", PStr "minor");
                   ("description", PStr "Minor Service Outage")])
           (PStr "minor")
           [sample_incident "2024-01-02T03:04:05.000Z"] []
           statusless_incident (KeyError "status"));
    reflexivity.
Defined.

(** X8: a maintenance the second loop fails on makes the function raise
    although the incident loop had gone through: the incidents it kept are
    not returned. *)
Theorem fetch_status_page_data_maintenance_aborts :
  forall (base_url : string) (w : world) (data status ind : pyval)
         (xs pre post : list pyval) (bad : pyval) (e : exn),
    request_outcome w (summary_url base_url) [] = Ok data ->
    Py.getitem data "status" = Ok status ->
    Py.getitem status "indicator" = Ok ind ->
    hashable ind = true ->
    Py.get data "incidents" (PList []) = Ok (PList xs) ->
    forallb (entry_ok ["investigating"; "identified"; "monitoring"; "in_progress"]
               "created_at") xs = true ->
    Py.get data "scheduled_maintenances" (PList []) =
    Ok (PList (pre ++ bad :: post)) ->
    forallb (entry_ok ["scheduled"; "in_progress"] "scheduled_for") pre = true ->
    maintenance_body bad = Raise e ->
    fst (fetch_status_page_data base_url w) = Raise e.
Proof.
  intros base_url w data status ind xs pre post bad e
         Hr Hs Hi Hh Hx Hxs Hy Hpre Hbad.
  apply (raise_escapes _ _ _ _ Hr).
  rewrite (summarize_prologue _ _ _ _ Hs Hi Hh).
  unfold collect, incidents_loop, maintenances_loop, rbind.
  rewrite Hx, Hy. cbn [Py.iter].
  destruct (for_append_total _ _ incident_body_total xs [] Hxs) as [incs ->].
  rewrite (for_append_abort _ _ _ _ _ (entry_ok_maintenances _ Hpre) Hbad).
  reflexivity.
Qed.

Lemma fetch_status_page_data_maintenance_aborts_witness :
  incidents_loop summary_failing_maintenance [] =
  Ok [mk_incident (PStr "API latency") "investigating" "02/01 03:04" true] /\
  fst (fetch_status_page_data url_Pagarme
         (serving summary_failing_maintenance)) = Raise ValueError.
Proof.
  split; [reflexivity|].
  apply (fetch_status_page_data_maintenance_aborts url_Pagarme
           (serving summary_failing_maintenance) summary_failing_maintenance
           (PDict [("indicator", PStr "minor");
                   ("description", PStr "Minor Service Outage")])
           (PStr "minor")
           [sample_incident "2024-01-02T03:04:05.000Z"] [] []
           (sample_maintenance "soon") ValueError);
    reflexivity.
Defined.

(** X9: the description is read only when nothing was kept.  On a status
    object without a description the function returns the kept records
    when there are some and raises KeyError for "description" when there
    are none. *)
Theorem fetch_status_page_data_description_lazy :
  forall (base_url : string) (w : world) (data status ind : pyval)
         (kept : list pyval),
    request_outcome w (summary_url base_url) [] = Ok data ->
    Py.getitem data "status" = Ok status ->
    Py.getitem status "indicator" = Ok ind ->
    hashable ind = true ->
    Py.getitem status "description" = Raise (KeyError "description") ->
    collect data = Ok kept ->
    fst (fetch_status_page_data base_url w) =
    match kept with
    | [] => Raise (KeyError "description")
    | _ => Ok kept
    end.
Proof.
  intros base_url w data status ind kept Hr Hs Hi Hh Hd Hc.
  rewrite fetch_status_page_data_eq, Hr.
  rewrite (summarize_prologue _ _ _ _ Hs Hi Hh). unfold rbind.
  rewrite Hc, Hd. destruct kept; reflexivity.
Qed.

Lemma fetch_status_page_data_description_lazy_witness :
  fst (fetch_status_page_data url_Pagarme
         (serving (summary_no_description
                     [sample_incident "2024-01-02T03:04:05.000Z"]))) =
  Ok [mk_incident (PStr "API latency") "investigating" "02/01 03:04" true] /\
  fst (fetch_status_page_data url_Pagarme
         (serving (summary_no_description []))) =
  Raise (KeyError "description").
Proof.
  split.
  - apply (fetch_status_page_data_description_lazy url_Pagarme (serving _)
             (summary_no_description
                [sample_incident "2024-01-02T03:04:05.000Z"])
             (PDict [("indicator", PStr "minor")]) (PStr "minor")
             [mk_incident (PStr "API latency") "investigating"
                "02/01 03:04" true]);
      reflexivity.
  - apply (fetch_status_page_data_description_lazy url_Pagarme (serving _)
             (summary_no_description [])
             (PDict [("indicator", PStr "minor")]) (PStr "minor") []);
      reflexivity.
Defined.

(** ** Order and size of the result *)

Lemma for_append_kept body xs :
  forall acc res,
    for_append body xs acc = Ok res -> res = acc ++ kept_of body xs.
Proof.
  induction xs as [|x xs IH]; intros acc res; cbn [for_append kept_of flat_map].
  - intros E; injection E as <-. rewrite app_nil_r. reflexivity.
  - unfold rbind. destruct (body x) as [[rec|]|]; [| |discriminate];
      intros H; apply IH in H; subst res; [|reflexivity].
    rewrite <- app_assoc. reflexivity.
Qed.

Lemma kept_of_length body xs : length (kept_of body xs) <= length xs.
Proof.
  induction xs as [|x xs IH]; cbn [kept_of flat_map length]; [lia|].
  rewrite length_app.
  destruct (body x) as [[rec|]|]; cbn [length]; unfold kept_of in IH; lia.
Qed.

(** X10: when both lists are lists and the function returns, the records
    are those of the kept incidents in the order of the incident list
    followed by those of the kept maintenances in the order of theirs
    (unless there is none), and there are never more records than the
    larger of 1 and the number of elements of the two lists. *)
Theorem fetch_status_page_data_order :
  forall (base_url : string) (w : world) (data : pyval)
         (xs ys recs : list pyval),
    request_outcome w (summary_url base_url) [] = Ok data ->
    Py.get data "incidents" (PList []) = Ok (PList xs) ->
    Py.get data "scheduled_maintenances" (PList []) = Ok (PList ys) ->
    fst (fetch_status_page_data base_url w) = Ok recs ->
    (kept_of incident_body xs ++ kept_of maintenance_body ys <> [] ->
     recs = kept_of incident_body xs ++ kept_of maintenance_body ys) /\
    (kept_of incident_body xs ++ kept_of maintenance_body ys = [] ->
     length recs = 1) /\
    length recs <= Nat.max 1 (length xs + length ys).
Proof.
  intros base_url w data xs ys recs Hr Hx Hy.
  rewrite fetch_status_page_data_eq, Hr. intros H.
  apply summarize_inv in H as (incs & maints & H1 & H2 & _ & _ & Hrecs).
  unfold incidents_loop, maintenances_loop, rbind in H1, H2.
  rewrite Hx in H1. rewrite Hy in H2. cbn [Py.iter] in H1, H2.
  apply for_append_kept in H1. apply for_append_kept in H2.
  cbn [app] in H1. subst incs. apply app_inv_head in H2. subst maints.
  pose proof (kept_of_length incident_body xs).
  pose proof (kept_of_length maintenance_body ys).
  destruct Hrecs as [[Hne ->] | [E (st & ind & desc & _ & _ & _ & ->)]].
  - repeat split; [intros E; contradiction | rewrite length_app; lia].
  - repeat split; [intros Hne; contradiction | cbn [length]; lia].
Qed.

Lemma fetch_status_page_data_order_witness :
  fst (fetch_status_page_data url_Pagarme (serving summary_two_kinds)) =
  Ok [mk_incident (PStr "API latency") "investigating" "02/01 03:04" true;
      mk_incident (PStr "Database upgrade") "scheduled" "03/02 04:05" true] /\
  length [mk_incident (PStr "API latency") "investigating" "02/01 03:04" true;
          mk_incident (PStr "Database upgrade") "scheduled" "03/02 04:05" true]
  <= Nat.max 1 (2 + 1).
Proof.
  split; [reflexivity|].
  apply (fetch_status_page_data_order url_Pagarme (serving summary_two_kinds)
           summary_two_kinds
           [resolved_incident; sample_incident "2024-01-02T03:04:05.000Z"]
           [sample_maintenance "2024-02-03T04:05:06.000Z"]);
    reflexivity.
Defined.

(** X11: [new] is false only on the single record that stands for the
    overall status of a provider with nothing kept; in every other list the
    function returns, all records have [new] true. *)
Theorem fetch_status_page_data_new_flag :
  forall (base_url : string) (w : world) (recs : list pyval),
    fst (fetch_status_page_data base_url w) = Ok recs ->
    Forall (fun rec => new_of rec = Some true) recs \/
    (exists rec data,
        recs = [rec] /\ new_of rec = Some false /\
        request_outcome w (summary_url base_url) [] = Ok data /\
        collect data = Ok []).
Proof.
  intros base_url w recs. rewrite fetch_status_page_data_eq.
  destruct (request_outcome w (summary_url base_url) []) as [data|e] eqn:Hr.
  - intros H. pose proof H as Hsum.
    apply summarize_inv in H
      as (incs & maints & H1 & H2 & F1 & F2 & [[_ ->] | [E H]]).
    + left. apply Forall_app. split.
      * eapply Forall_impl; [|exact F1]. intros rec (t & tm & ->). reflexivity.
      * eapply Forall_impl; [|exact F2]. intros rec (t & tm & ->). reflexivity.
    + right. destruct H as (st & ind & desc & _ & _ & _ & ->).
      eexists. exists data. repeat split.
      unfold collect, rbind. rewrite H1, H2, E. reflexivity.
  - destruct e; try discriminate. intros E; injection E as <-.
    left. repeat constructor.
Qed.

Lemma fetch_status_page_data_new_flag_witness :
  Forall (fun rec => new_of rec = Some true)
    [mk_incident (PStr "API latency") "investigating" "02/01 03:04" true;
     mk_incident (PStr "Database upgrade") "scheduled" "03/02 04:05" true] \/
  (exists rec data,
      [mk_incident (PStr "API latency") "investigating" "02/01 03:04" true;
       mk_incident (PStr "Database upgrade") "scheduled" "03/02 04:05" true]
      = [rec] /\ new_of rec = Some false /\
      request_outcome (serving summary_two_kinds) (summary_url url_Pagarme) []
      = Ok data /\
      collect data = Ok []).
Proof.
  exact (fetch_status_page_data_new_flag url_Pagarme
           (serving summary_two_kinds) _ eq_refl).
Defined.

(** ** The regional client: malformed bodies and effects *)

Lemma states_loop_bad its :
  forall acc,
    forallb (fun kv => is_dict (snd kv)) its = false ->
    states_loop its acc = Raise AttributeError.
Proof.
  induction its as [|[uf info] its IH]; intros acc; cbn [forallb snd];
    [discriminate|].
  cbn [states_loop]. unfold rbind.
  destruct info; cbn [is_dict andb Py.get]; try reflexivity.
  destruct (Py.assoc "status" d); intros H; apply IH, H.
Qed.

Lemma fetch_sefaz_status_snd (w : world) :
  snd (fetch_sefaz_status w) =
  match request_outcome w sefaz_api_url sefaz_headers with
  | Raise (RequestException _ msg) => printed (sefaz_error_line msg) w
  | _ => w
  end.
Proof.
  unfold printed, sefaz_error_line. run.
  repeat (destr; cbn [fst snd] in *; try reflexivity; try discriminate;
          try absurd_network).
Qed.

(** X12: a regional body that is not an object, or one of whose values is
    not an object, makes [fetch_sefaz_status] raise AttributeError; the
    except clause does not catch it, no list is returned and nothing is
    printed. *)
Theorem fetch_sefaz_status_malformed :
  forall (w : world) (data : pyval),
    request_outcome w sefaz_api_url sefaz_headers = Ok data ->
    regions_ok data = false ->
    fst (fetch_sefaz_status w) = Raise AttributeError /\
    snd (fetch_sefaz_status w) = w.
Proof.
  intros w data Hr Hd.
  rewrite fetch_sefaz_status_eq, fetch_sefaz_status_snd, Hr.
  split; [|reflexivity].
  destruct data; try reflexivity. cbn [Py.items rbind].
  apply states_loop_bad, Hd.
Qed.

Lemma fetch_sefaz_status_malformed_witness :
  fst (fetch_sefaz_status (serving flat_regions)) = Raise AttributeError /\
  fst (fetch_sefaz_status (serving (PList []))) = Raise AttributeError.
Proof.
  split.
  - apply (fetch_sefaz_status_malformed (serving flat_regions) flat_regions);
      reflexivity.
  - apply (fetch_sefaz_status_malformed (serving (PList [])) (PList []));
      reflexivity.
Defined.

(** X13: the regional client never reads the clock and never touches the
    files; it prints one line, the message with the text of the error (for
    an error status the text [raise_for_status] builds from the code, the
    reason and the URL of the response), when the fetch fails inside
    [requests], and leaves the world as it was otherwise. *)
Theorem fetch_sefaz_status_effects :
  forall (w : world),
    ticks (snd (fetch_sefaz_status w)) = ticks w /\
    files (snd (fetch_sefaz_status w)) = files w /\
    (forall k msg,
        fetch_fails w sefaz_api_url sefaz_headers k msg ->
        stdout (snd (fetch_sefaz_status w)) =
        stdout w ++ [("Erro ao buscar status da SEFAZ: " ++ msg)%string]) /\
    ((forall k msg, ~ fetch_fails w sefaz_api_url sefaz_headers k msg) ->
     snd (fetch_sefaz_status w) = w).
Proof.
  intros w. rewrite fetch_sefaz_status_snd. repeat split.
  - destruct (request_outcome w sefaz_api_url sefaz_headers) as [|[]];
      reflexivity.
  - destruct (request_outcome w sefaz_api_url sefaz_headers) as [|[]];
      reflexivity.
  - intros k msg H. apply fetch_fails_outcome in H. rewrite H. reflexivity.
  - intros H.
    destruct (request_outcome w sefaz_api_url sefaz_headers) as [|e] eqn:E;
      [reflexivity|].
    destruct e; try reflexivity.
    exfalso. apply (H k msg), fetch_fails_outcome, E.
Qed.

Lemma fetch_sefaz_status_effects_witness :
  stdout (snd (fetch_sefaz_status offline_world)) =
  ["Erro ao buscar status da SEFAZ: timed out"] /\
  ticks (snd (fetch_sefaz_status offline_world)) = 0 /\
  stdout (snd (fetch_sefaz_status unavailable_world)) =
  ["Erro ao buscar status da SEFAZ: 503 Server Error: Service Unavailable for url: https://monitorsefaz.webmaniabr.com/api/v1/status"].
Proof.
  split; [|split].
  - apply (proj1 (proj2 (proj2 (fetch_sefaz_status_effects offline_world)))
             Timeout "timed out").
    apply get_raises. reflexivity.
  - exact (proj1 (fetch_sefaz_status_effects offline_world)).
  - apply (proj1 (proj2 (proj2 (fetch_sefaz_status_effects unavailable_world)))
             (HTTPError 503)
             "503 Server Error: Service Unavailable for url: https://monitorsefaz.webmaniabr.com/api/v1/status").
    refine (status_raises unavailable_world sefaz_api_url sefaz_headers
              (mkResponse 503 "Service Unavailable" sefaz_api_url (Ok PNone))
              eq_refl _).
    cbn; lia.
Defined.

(** ** [main]: what is written, and when *)

Lemma assoc_setitem_other {V} (k k' : string) (v : V) (d : list (string * V)) :
  k' <> k -> Py.assoc k' (Py.setitem k v d) = Py.assoc k' d.
Proof.
  intros Hne. induction d as [|[k0 v0] d IH]; cbn [Py.setitem Py.assoc].
  - destruct (String.eqb_spec k' k); [contradiction | reflexivity].
  - destruct (String.eqb_spec k k0) as [->|]; cbn [Py.assoc].
    + destruct (String.eqb_spec k' k0); [contradiction | reflexivity].
    + rewrite IH. reflexivity.
Qed.

(** X14: when [main] raises, no file but the output file has changed.  The
    output file is as it was when a fetch raised or the file could not be
    opened.  Otherwise the four fetches returned and the file was opened:
    its old content is gone and it holds a beginning of the new document,
    the exception being OSError when the disk refused the text and
    UnicodeEncodeError when a string of the document has a surrogate. *)
Theorem main_raise_files :
  forall (w : world) (e : exn),
    fst (main w) = Raise e ->
    (forall path,
        path <> output_path ->
        Py.assoc path (files (snd (main w))) = Py.assoc path (files w)) /\
    ((files (snd (main w)) = files w /\
      (can_open w output_path = false \/
       ~ exists r1 r2 r3 states, fetches_return w r1 r2 r3 states)) \/
     (exists r1 r2 r3 states,
         fetches_return w r1 r2 r3 states /\
         can_open w output_path = true /\
         files (snd (main w)) =
         Py.setitem output_path (Partial (snapshot r1 r2 r3 states))
           (files w) /\
         ((can_write w output_path = false /\ e = OSError) \/
          (can_write w output_path = true /\
           encodable (snapshot r1 r2 r3 states) = false /\
           e = UnicodeEncodeError)))).
Proof.
  intros w e. rewrite main_eq. unfold fetches_return.
  destruct (after_fetch_frame url_AnyMarket w) as (_ & _ & _ & F1).
  destruct (after_fetch_frame url_PagSeguro (after_fetch url_AnyMarket w))
    as (_ & _ & _ & F2).
  destruct (after_providers_frame w) as (_ & F3).
  destruct (after_fetches_frame w) as (Ho & F4).
  pose proof (after_fetches_can_write w) as Hw.
  destruct (fst (fetch_status_page_data url_AnyMarket w)) as [r1|e1].
  2:{ intros _. cbn [snd]. rewrite F1. split; [reflexivity|]. left.
      split; [reflexivity|]. right. intros (? & ? & ? & ? & H & _).
      discriminate H. }
  destruct (fst (fetch_status_page_data url_PagSeguro _)) as [r2|e2].
  2:{ intros _. cbn [snd]. rewrite F2, F1. split; [reflexivity|]. left.
      split; [reflexivity|]. right. intros (? & ? & ? & ? & _ & H & _).
      discriminate H. }
  destruct (fst (fetch_status_page_data url_Pagarme _)) as [r3|e3].
  2:{ intros _. cbn [snd]. rewrite F3. split; [reflexivity|]. left.
      split; [reflexivity|]. right. intros (? & ? & ? & ? & _ & _ & H & _).
      discriminate H. }
  destruct (fst (fetch_sefaz_status _)) as [states|e4].
  2:{ intros _. cbn [snd]. rewrite F4. split; [reflexivity|]. left.
      split; [reflexivity|]. right. intros (? & ? & ? & ? & _ & _ & _ & H).
      discriminate H. }
  rewrite Ho, Hw.
  destruct (can_open w output_path).
  2:{ intros _. cbn [snd]. rewrite F4. split; [reflexivity|]. left.
      split; [reflexivity|]. left. reflexivity. }
  destruct (can_write w output_path).
  - destruct (encodable (snapshot r1 r2 r3 states)) eqn:He; [discriminate|].
    intros E; injection E as <-. cbn [snd with_file files]. rewrite F4. split.
    + intros path Hne. apply assoc_setitem_other, Hne.
    + right. exists r1, r2, r3, states. repeat split. right. repeat split.
      exact He.
  - intros E; injection E as <-. cbn [snd with_file files]. rewrite F4. split.
    + intros path Hne. apply assoc_setitem_other, Hne.
    + right. exists r1, r2, r3, states. repeat split. left. split; reflexivity.
Qed.

Lemma main_raise_files_witness :
  fst (main (with_files [("notes.txt", Dumped (PStr "keep"));
                         (output_path, Dumped (PStr "old"))]
               tainted_world)) = Raise UnicodeEncodeError /\
  Py.assoc "notes.txt"
    (files (snd (main (with_files [("notes.txt", Dumped (PStr "keep"));
                                   (output_path, Dumped (PStr "old"))]
                         tainted_world)))) = Some (Dumped (PStr "keep")) /\
  (exists doc,
      Py.assoc output_path
        (files (snd (main (with_files [("notes.txt", Dumped (PStr "keep"));
                                       (output_path, Dumped (PStr "old"))]
                             tainted_world)))) = Some (Partial doc)) /\
  fst (main (serving summary_incident_no_fraction)) = Raise ValueError /\
  files (snd (main (serving summary_incident_no_fraction))) = [].
Proof.
  destruct (main_raise_files
              (with_files [("notes.txt", Dumped (PStr "keep"));
                           (output_path, Dumped (PStr "old"))] tainted_world)
              UnicodeEncodeError eq_refl) as [Hother _].
  split; [reflexivity|]. split.
  { rewrite (Hother "notes.txt"); [reflexivity | discriminate]. }
  split; [eexists; reflexivity|].
  split; [reflexivity|].
  destruct (main_raise_files (serving summary_incident_no_fraction)
              ValueError eq_refl) as [_ [[H _] | (r1 & ? & ? & ? & (H & _) & _)]].
  - exact H.
  - discriminate H.
Defined.

(** X15: a run of [main] that completes has replaced the content of the
    output file, whatever it held, by the whole document built from the
    lists the four fetches returned, every string of which the codec could
    write, and has left every other file alone. *)
Theorem main_overwrites_one_file :
  forall (w : world),
    fst (main w) = Ok tt ->
    exists r1 r2 r3 states,
      fetches_return w r1 r2 r3 states /\
      Py.assoc output_path (files (snd (main w))) =
      Some (Dumped
              (PDict [("REAL_DATA",
                       PDict [("AnyMarket", PList r1); ("PagSeguro", PList r2);
                              ("Pagar.me", PList r3)]);
                      ("STATES_DATA", PList states)])) /\
      encodable (snapshot r1 r2 r3 states) = true /\
      can_open w output_path = true /\
      can_write w output_path = true /\
      (forall path,
          path <> output_path ->
          Py.assoc path (files (snd (main w))) = Py.assoc path (files w)).
Proof.
  intros w. rewrite main_eq. unfold fetches_return.
  destruct (after_fetches_frame w) as (Ho & F).
  rewrite Ho, after_fetches_can_write.
  destruct (fst (fetch_status_page_data url_AnyMarket w)) as [r1|];
    [|discriminate].
  destruct (fst (fetch_status_page_data url_PagSeguro _)) as [r2|];
    [|discriminate].
  destruct (fst (fetch_status_page_data url_Pagarme _)) as [r3|];
    [|discriminate].
  destruct (fst (fetch_sefaz_status _)) as [states|]; [|discriminate].
  destruct (can_open w output_path); [|discriminate].
  destruct (can_write w output_path); [|discriminate].
  destruct (encodable (snapshot r1 r2 r3 states)) eqn:He; [|discriminate].
  intros _. exists r1, r2, r3, states. cbn [fst snd written files].
  repeat split.
  - apply assoc_setitem.
  - exact He.
  - intros path Hne. rewrite (assoc_setitem_other _ _ _ _ Hne), F.
    reflexivity.
Qed.

Lemma main_overwrites_one_file_witness :
  Py.assoc output_path
    (files (snd (main (with_files [("notes.txt", Dumped (PStr "keep"));
                                   (output_path, Dumped (PStr "old"))]
                         offline_world)))) =
  Some (Dumped (snapshot [degraded_incident sample_now]
                  [degraded_incident sample_now]
                  [degraded_incident sample_now] SEFAZ_FALLBACK)) /\
  Py.assoc "notes.txt"
    (files (snd (main (with_files [("notes.txt", Dumped (PStr "keep"));
                                   (output_path, Dumped (PStr "old"))]
                         offline_world)))) =
  Some (Dumped (PStr "keep")).
Proof.
  split; [reflexivity|].
  destruct (main_overwrites_one_file
              (with_files [("notes.txt", Dumped (PStr "keep"));
                           (output_path, Dumped (PStr "old"))] offline_world)
              eq_refl) as (r1 & r2 & r3 & states & _ & _ & _ & _ & _ & H).
  rewrite (H "notes.txt"); [reflexivity | discriminate].
Defined.

(** X16: when the four fetches return but the output file cannot be
    opened, [main] raises OSError after the fetches: nothing is written
    and the closing message is not printed. *)
Theorem main_unwritable :
  forall (w : world) (r1 r2 r3 states : list pyval),
    fst (fetch_status_page_data url_AnyMarket w) = Ok r1 ->
    fst (fetch_status_page_data url_PagSeguro (after_fetch url_AnyMarket w))
    = Ok r2 ->
    fst (fetch_status_page_data url_Pagarme
           (after_fetch url_PagSeguro (after_fetch url_AnyMarket w)))
    = Ok r3 ->
    fst (fetch_sefaz_status (after_providers w)) = Ok states ->
    can_open w output_path = false ->
    fst (main w) = Raise OSError /\
    snd (main w) = snd (fetch_sefaz_status (after_providers w)) /\
    ~ In success_line (skipn (length (stdout w)) (stdout (snd (main w)))).
Proof.
  intros w r1 r2 r3 states H1 H2 H3 H4 Ho.
  rewrite main_eq, H1, H2, H3, H4.
  rewrite (proj1 (after_fetches_frame w)), Ho. cbn [fst snd].
  repeat split. unfold after_fetches.
  rewrite fetch_sefaz_status_snd.
  assert (Hs : exists l, stdout (after_providers w) = stdout w ++ l /\
                         ~ In success_line l).
  { unfold after_providers, after_fetch.
    rewrite !fetch_status_page_data_snd.
    repeat destr; unfold ticked, printed, datetime_now, print;
      cbn [snd stdout];
      try (exists []; rewrite app_nil_r; split; [reflexivity | intros []]);
      rewrite <- ?app_assoc; cbn [app];
      (eexists; split; [reflexivity|]);
      cbn; intros H; decompose [or] H; try discriminate; assumption. }
  destruct Hs as (l & Hl & Hn).
  destruct (request_outcome (after_providers w) sefaz_api_url sefaz_headers)
    as [|[]]; unfold printed, print; cbn [snd stdout]; rewrite Hl;
    rewrite <- ?app_assoc, skipn_app, skipn_all, Nat.sub_diag;
    cbn [skipn app]; try exact Hn.
  intros H. apply in_app_or in H as [H|[H|[]]]; [exact (Hn H)|].
  discriminate H.
Qed.

Lemma main_unwritable_witness :
  fst (main (read_only offline_world)) = Raise OSError /\
  files (snd (main (read_only offline_world))) = [] /\
  stdout (snd (main (read_only offline_world))) =
  ["Erro ao buscar dados de https://status.anymarket.com.br: timed out";
   "Erro ao buscar dados de https://status.pagbank.com.br: timed out";
   "Erro ao buscar dados de https://status.pagar.me: timed out";
   "Erro ao buscar status da SEFAZ: timed out"].
Proof.
  destruct (main_unwritable (read_only offline_world)
              [degraded_incident sample_now] [degraded_incident sample_now]
              [degraded_incident sample_now] SEFAZ_FALLBACK
              eq_refl eq_refl eq_refl eq_refl eq_refl) as (H1 & H2 & _).
  split; [exact H1|]. rewrite H2. split; reflexivity.
Defined.

(** ** [main]: bounds on what it prints and reads *)

Lemma fetch_status_page_data_growth base_url w :
  exists l,
    stdout (after_fetch base_url w) = stdout w ++ l /\
    length l <= 1 /\
    ticks w <= ticks (after_fetch base_url w) <= S (ticks w).
Proof.
  unfold after_fetch. rewrite fetch_status_page_data_snd.
  repeat destr; unfold ticked, printed, datetime_now, print;
    cbn [snd stdout ticks];
    try (exists []; rewrite app_nil_r; cbn [length]; repeat split; lia);
    (eexists; split; [reflexivity|]); cbn [length]; repeat split; lia.
Qed.

Lemma fetch_sefaz_status_growth w :
  exists l,
    stdout (snd (fetch_sefaz_status w)) = stdout w ++ l /\
    length l <= 1 /\
    ticks (snd (fetch_sefaz_status w)) = ticks w.
Proof.
  rewrite fetch_sefaz_status_snd.
  repeat destr; unfold printed, print; cbn [snd stdout ticks];
    try (exists []; rewrite app_nil_r; cbn [length]; repeat split; lia);
    (eexists; split; [reflexivity|]); cbn [length]; repeat split; lia.
Qed.

(** X17: a run of [main] that completes only appends to standard output:
    at most one error line per fetch, four at most, and then the closing
    message as the last line; it reads the clock at most three times. *)
Theorem main_output_bounds :
  forall (w : world),
    fst (main w) = Ok tt ->
    exists errs,
      stdout (snd (main w)) =
      stdout w ++ errs ++
      ["Dados em tempo real salvos em /home/ubuntu/real_time_data.json"] /\
      length errs <= 4 /\
      ticks w <= ticks (snd (main w)) <= ticks w + 3.
Proof.
  intros w. rewrite main_eq.
  destruct (fst (fetch_status_page_data url_AnyMarket w)); [|discriminate].
  destruct (fst (fetch_status_page_data url_PagSeguro _)); [|discriminate].
  destruct (fst (fetch_status_page_data url_Pagarme _)); [|discriminate].
  destruct (fst (fetch_sefaz_status _)); [|discriminate].
  destruct (can_open _ output_path); [|discriminate].
  destruct (can_write _ output_path); [|discriminate].
  destruct (encodable _); [|discriminate].
  intros _. cbn [snd written stdout ticks].
  unfold after_fetches, after_providers.
  destruct (fetch_status_page_data_growth url_AnyMarket w)
    as (l1 & S1 & L1 & T1).
  destruct (fetch_status_page_data_growth url_PagSeguro
              (after_fetch url_AnyMarket w)) as (l2 & S2 & L2 & T2).
  destruct (fetch_status_page_data_growth url_Pagarme
              (after_fetch url_PagSeguro (after_fetch url_AnyMarket w)))
    as (l3 & S3 & L3 & T3).
  destruct (fetch_sefaz_status_growth
              (after_fetch url_Pagarme
                 (after_fetch url_PagSeguro (after_fetch url_AnyMarket w))))
    as (l4 & S4 & L4 & T4).
  exists (l1 ++ l2 ++ l3 ++ l4).
  rewrite S4, S3, S2, S1, T4, !length_app, <- !app_assoc.
  repeat split; try reflexivity; lia.
Qed.

Lemma main_output_bounds_witness :
  ticks (snd (main healthy_world)) = 3 /\
  stdout (snd (main offline_world)) =
  ["Erro ao buscar dados de https://status.anymarket.com.br: timed out";
   "Erro ao buscar dados de https://status.pagbank.com.br: timed out";
   "Erro ao buscar dados de https://status.pagar.me: timed out";
   "Erro ao buscar status da SEFAZ: timed out";
   "Dados em tempo real salvos em /home/ubuntu/real_time_data.json"] /\
  exists errs,
    stdout (snd (main healthy_world)) =
    [] ++ errs ++
    ["Dados em tempo real salvos em /home/ubuntu/real_time_data.json"] /\
    length errs <= 4 /\
    0 <= ticks (snd (main healthy_world)) <= 0 + 3.
Proof.
  split; [reflexivity|]. split; [reflexivity|].
  exact (main_output_bounds healthy_world eq_refl).
Defined.

(** ** Timestamps that do not end on a digit *)

Lemma match_seq_spec cs :
  forall s m rest,
    Strptime.match_seq cs s = Some (m, rest) ->
    s = m ++ rest /\ Forall2 (fun c a => c a = true) cs m.
Proof.
  induction cs as [|c cs IH]; intros s m rest; cbn [Strptime.match_seq].
  - intros E; injection E as <- <-. split; [reflexivity | constructor].
  - destruct s as [|a s]; [discriminate|].
    destruct (c a) eqn:Hc; [|discriminate].
    destruct (Strptime.match_seq cs s) as [[m' rest']|] eqn:E; [|discriminate].
    intros H; injection H as <- <-. apply IH in E as [-> F].
    split; [reflexivity | constructor; assumption].
Qed.

Lemma alt_rejects_last z cs m :
  Forall2 (fun c a => c a = true) cs m ->
  alt_rejects z cs = true ->
  exists m' a, m = m' ++ [a] /\ a <> z.
Proof.
  induction 1 as [|c a cs m Hc F IH]; cbn [alt_rejects]; [discriminate|].
  destruct F as [|c' a' cs' m' Hc' F'].
  - intros Hz. exists [], a. split; [reflexivity|].
    intros ->. rewrite Hc in Hz. discriminate Hz.
  - intros Hz. destruct (IH Hz) as (m0 & a0 & E & Hne).
    exists (a :: m0), a0. rewrite E. split; [reflexivity | exact Hne].
Qed.

Lemma match_items_group alts its s gs r :
  Strptime.match_items (Strptime.Group alts :: its) s = Some (gs, r) ->
  exists alt m rest gs',
    In alt alts /\ Strptime.match_seq alt s = Some (m, rest) /\
    Strptime.match_items its rest = Some (gs', r) /\ gs = m :: gs'.
Proof.
  induction alts as [|alt alts IH]; cbn [Strptime.match_items];
    [discriminate|].
  destruct (Strptime.match_seq alt s) as [[m rest]|] eqn:E.
  - destruct (Strptime.match_items its rest) as [[gs' r']|] eqn:E2.
    + intros H; injection H as <- <-.
      exists alt, m, rest, gs'. repeat split; try assumption. left; reflexivity.
    + intros H. destruct (IH H) as (alt' & m' & rest' & gs' & Hin & H').
      exists alt', m', rest', gs'. split; [right; exact Hin | exact H'].
  - intros H. destruct (IH H) as (alt' & m' & rest' & gs' & Hin & H').
    exists alt', m', rest', gs'. split; [right; exact Hin | exact H'].
Qed.

(** A match that uses up the input ends on a character the last item
    accepts. *)
Lemma match_items_last z its :
  forall s gs,
    items_reject z its = true ->
    Strptime.match_items its s = Some (gs, []) ->
    exists m a, s = m ++ [a] /\ a <> z.
Proof.
  induction its as [|it its IH]; intros s gs; [discriminate|].
  destruct its as [|it2 its].
  - cbn [items_reject]. destruct it as [c|alts]; cbn [item_rejects].
    + cbn [Strptime.match_items]. destruct s as [|a s]; [discriminate|].
      destruct (c a) eqn:Hc; [|discriminate].
      intros Hz H; injection H as _ ->. exists [], a.
      split; [reflexivity|]. intros ->. rewrite Hc in Hz. discriminate Hz.
    + intros Hz H.
      apply match_items_group in H as (alt & m & rest & gs' & Hin & Hm & H & _).
      cbn [Strptime.match_items] in H. injection H as _ ->.
      apply match_seq_spec in Hm as [-> F]. rewrite app_nil_r.
      rewrite forallb_forall in Hz.
      exact (alt_rejects_last z alt m F (Hz alt Hin)).
  - change (items_reject z (it :: it2 :: its))
      with (items_reject z (it2 :: its)).
    intros Hz. destruct it as [c|alts].
    + cbn [Strptime.match_items]. destruct s as [|a s]; [discriminate|].
      destruct (c a); [|discriminate]. intros H.
      destruct (IH _ _ Hz H) as (m & a0 & -> & Hne).
      exists (a :: m), a0. split; [reflexivity | exact Hne].
    + intros H.
      apply match_items_group in H as (alt & m & rest & gs' & _ & Hm & H & _).
      apply match_seq_spec in Hm as [-> _].
      destruct (IH _ _ Hz H) as (m0 & a0 & -> & Hne).
      exists (m ++ m0), a0. rewrite app_assoc. split; [reflexivity | exact Hne].
Qed.

Lemma iso_format_rejects z :
  Strptime.is_digit z = false -> items_reject z Strptime.iso_format = true.
Proof.
  intros H. cbn [items_reject Strptime.iso_format item_rejects Strptime.re_S
                 forallb alt_rejects].
  unfold Strptime.d. rewrite H. cbn [negb andb].
  destruct (Strptime.range "0" "1" z) eqn:E; [|reflexivity].
  exfalso. unfold Strptime.range in E.
  change (N_of_ascii "0") with 48%N in E.
  change (N_of_ascii "1") with 49%N in E.
  apply andb_true_iff in E as [E1 E2].
  apply N.leb_le in E1. apply N.leb_le in E2.
  assert (Hz : z = 48%N \/ z = 49%N) by lia.
  destruct Hz as [-> | ->]; vm_compute in H; discriminate H.
Qed.

Lemma strptime_iso_last_digit (s : string) (pre : list N) (c : N) :
  Py.code_points s = pre ++ [c] ->
  Strptime.is_digit c = false ->
  Strptime.strptime_iso s = Raise ValueError.
Proof.
  intros Hs Hc. unfold Strptime.strptime_iso.
  destruct (Strptime.match_items Strptime.iso_format _)
    as [[gs rest]|] eqn:E; [|reflexivity].
  destruct rest as [|r rest].
  - exfalso.
    destruct (match_items_last c _ _ _ (iso_format_rejects c Hc) E)
      as (m & a & Heq & Hne).
    rewrite Hs in Heq. apply app_inj_tail in Heq as [_ Heq]. congruence.
  - repeat (destruct gs as [|? gs]; try reflexivity).
Qed.

(** X18: a timestamp without a '.' whose last character is not a decimal
    digit (a trailing Z, for one) never parses: the loop body of a kept
    incident with such a created_at raises ValueError, and so does that of
    a kept maintenance with such a scheduled_for. *)
Theorem timestamp_must_end_on_digit :
  forall (s : string) (pre : list N) (c : N) (entry st name : pyval),
    Py.code_points s = pre ++ [c] ->
    Strptime.is_digit c = false ->
    ~ In "."%char (list_ascii_of_string s) ->
    Py.getitem entry "status" = Ok st ->
    Py.getitem entry "name" = Ok name ->
    format_time (PStr s) = Raise ValueError /\
    (Py.in_strs st kept_incident_statuses = true ->
     Py.getitem entry "created_at" = Ok (PStr s) ->
     incident_body entry = Raise ValueError) /\
    (Py.in_strs st ["scheduled"; "in_progress"] = true ->
     Py.getitem entry "scheduled_for" = Ok (PStr s) ->
     maintenance_body entry = Raise ValueError).
Proof.
  intros s pre c entry st name Hs Hc Hdot Hst Hn.
  assert (Hf : format_time (PStr s) = Raise ValueError).
  { rewrite (format_time_whole _ Hdot), (strptime_iso_last_digit s pre c Hs Hc).
    reflexivity. }
  split; [exact Hf|]. split.
  - intros Hk Hcr. unfold incident_body, rbind. rewrite Hst.
    unfold kept_incident_statuses in Hk. rewrite Hk, Hn.
    rewrite (kept_incident_status _ Hk), Hcr, Hf. reflexivity.
  - intros Hk Hcr. unfold maintenance_body, rbind.
    rewrite Hst, Hk, Hn, Hcr, Hf. reflexivity.
Qed.

Lemma timestamp_must_end_on_digit_witness :
  format_time (PStr "2024-01-02T03:04:05Z") = Raise ValueError /\
  incident_body (sample_incident "2024-01-02T03:04:05Z") = Raise ValueError /\
  Strptime.is_digit 1637%N = true /\
  format_time (PStr ("2024-01-02T03:04:0"
                     ++ String "217"%char (String "165"%char EmptyString)))
  = Ok "02/01 03:04".
Proof.
  destruct (timestamp_must_end_on_digit "2024-01-02T03:04:05Z"
              (Py.code_points "2024-01-02T03:04:05") 90%N
              (sample_incident "2024-01-02T03:04:05Z")
              (PStr "identified") (PStr "API latency")) as (H1 & H2 & _);
    try reflexivity.
  - cbn. intros H. decompose [or] H; try discriminate; assumption.
  - split; [exact H1|]. split; [apply H2; reflexivity|].
    split; reflexivity.
Defined.

(** X19: what follows the first '.' of a timestamp plays no part: two
    timestamps that agree up to their first '.' are formatted alike, and
    like the text before the '.' alone, so a zone offset written after the
    fraction shifts nothing. *)
Theorem format_time_ignores_fraction :
  forall (s rest1 rest2 : string),
    ~ In "."%char (list_ascii_of_string s) ->
    format_time (PStr (s ++ String "." rest1)) =
    format_time (PStr (s ++ String "." rest2)) /\
    format_time (PStr (s ++ String "." rest1)) = format_time (PStr s).
Proof.
  intros s rest1 rest2 H.
  rewrite !(format_time_truncates s _ H). split; reflexivity.
Qed.

Lemma format_time_ignores_fraction_witness :
  format_time (PStr "2024-01-02T03:04:05.000Z") =
  format_time (PStr "2024-01-02T03:04:05.441-06:00") /\
  format_time (PStr "2024-01-02T03:04:05.441-06:00") = Ok "02/01 03:04".
Proof.
  destruct (format_time_ignores_fraction "2024-01-02T03:04:05"
              "000Z" "441-06:00") as [H1 H2].
  - cbn. intros H. decompose [or] H; try discriminate; assumption.
  - split; [exact H1|]. reflexivity.
Defined.

(** ** The loop over the provider table *)

Lemma setitem_fresh {V} (k : string) (v : V) (d : list (string * V)) :
  ~ In k (map fst d) -> Py.setitem k v d = d ++ [(k, v)].
Proof.
  induction d as [|[k0 v0] d IH]; cbn [Py.setitem map fst In app];
    [reflexivity|].
  intros H. destruct (String.eqb_spec k k0) as [->|_].
  - exfalso. apply H. left. reflexivity.
  - rewrite IH; [reflexivity|]. intros Hin. apply H. right. exact Hin.
Qed.

Lemma fetch_status_page_data_returns_some base_url w recs :
  fst (fetch_status_page_data base_url w) = Ok recs ->
  exists rec recs', recs = rec :: recs'.
Proof.
  rewrite fetch_status_page_data_eq.
  destruct (request_outcome w (summary_url base_url) []) as [data|e].
  - intros H. apply summarize_inv in H
      as (incs & maints & _ & _ & _ & _ & [[Hne ->] | [_ H]]).
    + destruct (incs ++ maints); [contradiction | eauto].
    + destruct H as (? & ? & ? & _ & _ & _ & ->). eauto.
  - destruct e; try discriminate. intros E; injection E as <-. eauto.
Qed.

Lemma providers_loop_inv ps :
  forall acc w real_data,
    NoDup (map fst acc ++ map fst ps) ->
    fst (providers_loop ps acc w) = Ok real_data ->
    exists new,
      real_data = acc ++ new /\
      map fst new = map fst ps /\
      Forall (fun kv => exists rec recs, snd kv = PList (rec :: recs)) new.
Proof.
  induction ps as [|[name url] ps IH]; intros acc w real_data Hnd;
    cbn [providers_loop].
  - unfold ret. cbn [fst]. intros E; injection E as <-.
    exists []. rewrite app_nil_r. repeat split. constructor.
  - unfold bind.
    rewrite (surjective_run (fetch_status_page_data url) w).
    destruct (fst (fetch_status_page_data url w)) as [recs|] eqn:Hf;
      [|discriminate].
    apply fetch_status_page_data_returns_some in Hf as (rec & recs' & ->).
    cbn [map fst] in Hnd.
    rewrite setitem_fresh
      by (apply NoDup_remove_2 in Hnd; intros Hin; apply Hnd, in_or_app;
          left; exact Hin).
    intros H. apply IH in H as (new & -> & Hk & Hv).
    + exists ((name, PList (rec :: recs')) :: new).
      rewrite <- app_assoc. cbn [app map fst]. rewrite Hk.
      repeat split. constructor; [cbn [snd]; eauto | exact Hv].
    + rewrite map_app, <- app_assoc. exact Hnd.
Qed.

(** X20: for any table of providers with distinct names, when the loop of
    [main] completes, [real_data] has exactly the names of the table as
    keys, in the order of the table, and the list under every name is not
    empty. *)
Theorem providers_loop_keys :
  forall (ps : list (string * string)) (w : world)
         (real_data : list (string * pyval)),
    NoDup (map fst ps) ->
    fst (providers_loop ps [] w) = Ok real_data ->
    map fst real_data = map fst ps /\
    Forall (fun kv => exists rec recs, snd kv = PList (rec :: recs)) real_data.
Proof.
  intros ps w real_data Hnd H.
  apply providers_loop_inv in H as (new & -> & Hk & Hv); [|exact Hnd].
  split; [exact Hk | exact Hv].
Qed.

Lemma providers_loop_keys_witness :
  NoDup (map fst STATUS_PAGES) /\
  map fst [("AnyMarket", PList [degraded_incident sample_now]);
           ("PagSeguro", PList [degraded_incident sample_now]);
           ("Pagar.me", PList [degraded_incident sample_now])] =
  map fst STATUS_PAGES.
Proof.
  assert (Hnd : NoDup (map fst STATUS_PAGES)).
  { repeat (constructor; [cbn; intuition discriminate|]). constructor. }
  split; [exact Hnd|].
  exact (proj1 (providers_loop_keys STATUS_PAGES offline_world _ Hnd eq_refl)).
Defined.
